(** * Cascade lending bot: a shallow embedding of [cascadebot.py],
      [BFClient.py] and [lending.py], and the properties of the rate decay,
      the offer consolidation and the request governance layer.

    Modelling conventions.

    - [Decimal] values are exact rationals ([Q]); two decimals are the same
      dictionary key when they are numerically equal ([Qeq]), as Python's
      [Decimal.__eq__] and [Decimal.__hash__] have it.  The 28 significant
      digits of the default decimal context, NaN and the infinities are not
      modelled: the development speaks about the exact arithmetic the
      program is written for.
    - [datetime] values are microseconds since the epoch and [timedelta]
      values are microseconds, both in [Z]; Python integers are [Z].
    - The outside world is a finite script: the time that passes before each
      later reading of the clock ([lags]) and the outcome of each later HTTP
      attempt ([wire]).  A loop that polls the world recurses on the script,
      so a run either returns, raises, or uses up the script
      ([OutOfScript]).
    - Everything the program does to the world is appended to [trace]. *)

From Stdlib Require Import ZArith QArith Qround Qminmax List String Ascii Bool.
From Stdlib Require Import Sorted.
From Stdlib Require Import Lia Lqa.
Import ListNotations.
Open Scope Z_scope.

(** ** Python values and primitives *)

Module Py.

Inductive Exn : Type :=
| Exception (msg : string)
| TypeError
| ZeroDivisionError
| InvalidOperation
| KeyError (key : string)
| HTTPError (status_code : Z).

(** The two kinds of value [time_elapsed // decrement_interval] can be. *)
Inductive Val : Type :=
| Int (n : Z)
| Timedelta (us : Z).

(** [timedelta.__floordiv__]: a timedelta divided by a timedelta is an
    integer, a timedelta divided by an integer is a timedelta; both round
    toward minus infinity, as [Z.div] does. *)
Definition timedelta_floordiv (self : Z) (other : Val) : Exn + Val :=
  match other with
  | Timedelta d => if d =? 0 then inl ZeroDivisionError else inr (Int (self / d))
  | Int n => if n =? 0 then inl ZeroDivisionError else inr (Timedelta (self / n))
  end.

(** [a < b]: integers compare with integers and timedeltas with timedeltas;
    a timedelta and an integer are unorderable. *)
Definition lt (a b : Val) : Exn + bool :=
  match a, b with
  | Int x, Int y => inr (x <? y)
  | Timedelta x, Timedelta y => inr (x <? y)
  | _, _ => inl TypeError
  end.

(** [range(n)]: the number of iterations; only an integer will do. *)
Definition range (n : Val) : Exn + nat :=
  match n with
  | Int k => inr (Z.to_nat k)
  | Timedelta _ => inl TypeError
  end.

Definition Qltb (a b : Q) : bool :=
  match a ?= b with Lt => true | _ => false end%Q.

Definition Qleb (a b : Q) : bool :=
  match a ?= b with Gt => false | _ => true end%Q.

Definition Qeqb (a b : Q) : bool :=
  match a ?= b with Eq => true | _ => false end%Q.

(** The builtin [max(a, b)]: the first argument unless the second is
    strictly greater. *)
Definition max (a b : Q) : Q := if Qltb a b then b else a.

(** [int(d)] for a decimal [d]: truncation toward zero. *)
Definition int (d : Q) : Z := Z.quot (Qnum d) (Z.pos (Qden d)).

(** *** The [Decimal(str)] constructor

    [sign] digits [. digits] [(e|E) [sign] digits], with at least one digit
    in the coefficient. *)

Definition digit (c : ascii) : option Z :=
  let n := Z.of_nat (nat_of_ascii c) in
  if (48 <=? n) && (n <=? 57) then Some (n - 48) else None.

(** Reads the longest prefix of digits of [s] after the coefficient [acc];
    returns the coefficient, the number of digits read and the rest. *)
Fixpoint digits (s : string) (acc : Z) (count : nat) : Z * nat * string :=
  match s with
  | String c rest =>
      match digit c with
      | Some d => digits rest (10 * acc + d) (S count)
      | None => (acc, count, s)
      end
  | EmptyString => (acc, count, s)
  end.

Definition sign (s : string) : bool * string :=
  match s with
  | String "-" rest => (true, rest)
  | String "+" rest => (false, rest)
  | _ => (false, s)
  end.

Definition signed (negative : bool) (z : Z) : Z :=
  if negative then - z else z.

(** [coefficient * 10 ^ exponent] as a rational. *)
Definition scale (coefficient exponent : Z) : Q :=
  if 0 <=? exponent
  then inject_Z (coefficient * 10 ^ exponent)
  else Qmake coefficient (Z.to_pos (10 ^ (- exponent))).

Definition Decimal (s : string) : Exn + Q :=
  let (negative, s1) := sign s in
  let '(ip, ni, s2) := digits s1 0 0 in
  let '(coefficient, nf, s3) :=
    match s2 with
    | String "." rest => digits rest ip 0
    | _ => (ip, 0%nat, s2)
    end in
  if (ni + nf =? 0)%nat then inl InvalidOperation else
  match s3 with
  | EmptyString => inr (scale (signed negative coefficient) (- Z.of_nat nf))
  | String c rest =>
      if (Ascii.eqb c "e" || Ascii.eqb c "E")%bool then
        let (eneg, r1) := sign rest in
        match digits r1 0 0 with
        | (e, S _, EmptyString) =>
            inr (scale (signed negative coefficient)
                       (signed eneg e - Z.of_nat nf))
        | _ => inl InvalidOperation
        end
      else inl InvalidOperation
  end.

End Py.

(** ** The process state and the outside world *)

(** One second, in microseconds. *)
Definition second : Z := 1000000.

(** The parameters of a request, next to [request] and [nonce]. *)
Inductive Params : Type :=
| NoParams
| CancelParams (offer_id : Z)
| NewOfferParams (currency : string) (amount rate : Q) (period : Z).

(** One entry of the [/v1/offers] response, and the body of the responses
    to [/v1/offer/cancel] and [/v1/offer/new]. *)
Record offer_dict : Type := mk_offer_dict {
  d_id : Z;
  d_currency : string;
  d_rate : string;
  d_timestamp : string;
  d_remaining_amount : string;
  d_direction : string
}.

(** One entry of the [/v1/balances] response. *)
Record balance_dict : Type := mk_balance_dict {
  b_type : string;
  b_currency : string;
  b_available : string;
  b_amount : string
}.

Inductive Json : Type :=
| JOffer (d : offer_dict)
| JOffers (l : list offer_dict)
| JBalances (l : list balance_dict)
| JOther.

(** What one call of [requests.post] or [requests.get] comes to. *)
Inductive HttpOutcome : Type :=
| ConnectionFailed
| Response (status_code : Z) (body : Json).

Record Offer : Type := mk_Offer {
  id : Z;
  currency : string;
  rate : Q;
  submitted_at : Z;
  amount : Q
}.

Inductive Message : Type :=
| MsgRetry (status_string : string) (delay : Z)
| MsgRateLimit (delay : Z)
| MsgResponseText (status_code : Z)
| MsgOffer (o : Offer)
| MsgSkip (rate : Q) (currency : string) (amount : Q).

Inductive Method : Type := POST | GET.

Inductive Event : Type :=
| EvSleep (us : Z)
| EvPrint (m : Message)
| EvHttp (method : Method) (path : string) (params : Params) (nonce : Z).

Record State : Type := mk_State {
  clock : Z;
  lags : list Z;
  wire : list HttpOutcome;
  trace : list Event;
  nonce : Z;
  request_timestamps : list Z
}.

Definition set_clock (t : Z) (l : list Z) (s : State) : State :=
  mk_State t l (wire s) (trace s) (nonce s) (request_timestamps s).

Definition set_wire (w : list HttpOutcome) (s : State) : State :=
  mk_State (clock s) (lags s) w (trace s) (nonce s) (request_timestamps s).

Definition emit (e : Event) (s : State) : State :=
  mk_State (clock s) (lags s) (wire s) (trace s ++ [e]) (nonce s)
           (request_timestamps s).

Definition set_nonce (n : Z) (s : State) : State :=
  mk_State (clock s) (lags s) (wire s) (trace s) n (request_timestamps s).

Definition set_request_timestamps (ts : list Z) (s : State) : State :=
  mk_State (clock s) (lags s) (wire s) (trace s) (nonce s) ts.

(** ** The monad of the program: state, exceptions, and a finite world *)

Inductive Res (A : Type) : Type :=
| Ok (a : A) (s : State)
| Raise (e : Py.Exn) (s : State)
| OutOfScript.

Arguments Ok {A} a s.
Arguments Raise {A} e s.
Arguments OutOfScript {A}.

Definition M (A : Type) : Type := State -> Res A.

Definition ret {A} (a : A) : M A := fun s => Ok a s.

Definition bind {A B} (m : M A) (k : A -> M B) : M B :=
  fun s =>
    match m s with
    | Ok a s' => k a s'
    | Raise e s' => Raise e s'
    | OutOfScript => OutOfScript
    end.

Definition raise {A} (e : Py.Exn) : M A := fun s => Raise e s.

Definition lift {A} (x : Py.Exn + A) : M A :=
  match x with
  | inl e => raise e
  | inr a => ret a
  end.

Declare Scope py_scope.
Delimit Scope py_scope with py.
Notation "x <- m ;; k" := (bind m (fun x => k))
  (at level 100, m at next level, right associativity) : py_scope.
Notation "m ;; k" := (bind m (fun _ => k))
  (at level 100, right associativity) : py_scope.
Open Scope py_scope.

(** [datetime.utcnow()]: the time that has passed since the last reading
    comes from the world. *)
Definition utcnow : M Z :=
  fun s =>
    match lags s with
    | [] => OutOfScript
    | e :: rest => let t := clock s + e in Ok t (set_clock t rest s)
    end.

(** [time.sleep(delay)], with [delay] in microseconds. *)
Definition sleep (delay : Z) : M unit :=
  fun s => Ok tt (emit (EvSleep delay) (set_clock (clock s + delay) (lags s) s)).

Definition print (m : Message) : M unit :=
  fun s => Ok tt (emit (EvPrint m) s).

(** [Offer.__init__]. *)
Definition Offer_init (offer_dict : offer_dict) : Py.Exn + Offer :=
  match Py.Decimal (d_rate offer_dict) with
  | inl e => inl e
  | inr rate =>
      match Py.Decimal (d_timestamp offer_dict) with
      | inl e => inl e
      | inr timestamp =>
          match Py.Decimal (d_remaining_amount offer_dict) with
          | inl e => inl e
          | inr amount =>
              inr (mk_Offer (d_id offer_dict) (d_currency offer_dict) rate
                            (Py.int timestamp * second) amount)
          end
      end
  end.

(** The body of the [for] loop of [get_new_rate], [n] times. *)
Fixpoint decay_loop (min_rate rate_decrement decay_multiplier : Q)
         (n : nat) (new_rate : Q) : Q :=
  match n with
  | O => new_rate
  | S k =>
      let new_rate := (new_rate - rate_decrement)%Q in
      let new_rate := ((new_rate - min_rate) * decay_multiplier + min_rate)%Q in
      decay_loop min_rate rate_decrement decay_multiplier k new_rate
  end.

(** ** [class BitfinexAPI]: the methods [cascadebot.py] and [BFClient.py]
      have in common *)

Module BitfinexAPI.

Definition rate_limit_interval : Z := 70 * second.
Definition max_requests_per_interval : nat := 60.

(** [__init__]: the nonce counter starts at [int(time.time())] and the
    timestamp window is empty. *)
Definition __init__ : M unit :=
  now <- utcnow ;;
  fun s => Ok tt (set_request_timestamps [] (set_nonce (Z.quot now second) s)).

(** [while timestamps and timestamps[0] < expire: timestamps.popleft()] *)
Fixpoint evict (expire : Z) (timestamps : list Z) : list Z :=
  match timestamps with
  | t :: rest => if t <? expire then evict expire rest else timestamps
  | [] => []
  end.

(** The [while True] loop of [_rate_limiter]; every iteration reads the
    clock once, so [fuel] counts the readings the world still has. *)
Fixpoint rate_limiter_loop (fuel : nat) : M unit :=
  match fuel with
  | O => fun _ => OutOfScript
  | S fuel' =>
      now <- utcnow ;;
      let expire := now - rate_limit_interval in
      fun s =>
        let timestamps := evict expire (request_timestamps s) in
        let s := set_request_timestamps timestamps s in
        if (max_requests_per_interval <=? List.length timestamps)%nat then
          let delay := hd 0 timestamps - expire in
          (print (MsgRateLimit delay) ;;
           sleep delay ;;
           rate_limiter_loop fuel') s
        else Ok tt s
  end.

Definition _rate_limiter : M unit :=
  (fun s => rate_limiter_loop (List.length (lags s)) s) ;;
  now <- utcnow ;;
  fun s => Ok tt (set_request_timestamps (request_timestamps s ++ [now]) s).

(** [next(self.nonce)] *)
Definition next_nonce : M Z :=
  fun s => Ok (nonce s) (set_nonce (nonce s + 1) s).

(** [requests.post(url, headers=headers)] and [requests.get]: the attempt is
    seen on the wire with the parameters and the nonce of its payload; its
    outcome comes from the world.  [None] stands for the
    [ConnectionError] the [try] catches. *)
Definition http (method : Method) (path : string) (params : Params) (n : Z)
  : M (option (Z * Json)) :=
  fun s =>
    match wire s with
    | [] => OutOfScript
    | o :: rest =>
        let s := emit (EvHttp method path params n) (set_wire rest s) in
        match o with
        | ConnectionFailed => Ok None s
        | Response status_code body => Ok (Some (status_code, body)) s
        end
    end.

(** [requests.Response.__bool__] is [Response.ok]: true unless
    [raise_for_status] would raise, that is unless the status is a client
    or server error. *)
Definition Response_ok (status_code : Z) : bool :=
  negb ((400 <=? status_code) && (status_code <? 600)).

(** The [while request is None] loop; every iteration makes one attempt, so
    [fuel] counts the outcomes the world still has. *)
Fixpoint retry_loop (fuel : nat) (method : Method) (path : string)
         (params : Params) (n : Z) (retry_count : Z) : M (Z * Json) :=
  match fuel with
  | O => fun _ => OutOfScript
  | S fuel' =>
      request <- http method path params n ;;
      let '(request, status_string) :=
        match request with
        | None => (None, "Connection failed,"%string)
        | Some (status_code, body) =>
            if Response_ok status_code && (status_code =? 500)
            then (None, "500 internal server error,"%string)
            else (Some (status_code, body), EmptyString)
        end in
      match request with
      | None =>
          let delay := 2 ^ retry_count in
          print (MsgRetry status_string delay) ;;
          sleep (delay * second) ;;
          retry_loop fuel' method path params n (retry_count + 1)
      | Some r => ret r
      end
  end.

(** The body shared by [_request] (POST) and [_get] (GET). *)
Definition send (method : Method) (request_type : string) (parameters : Params)
  : M Json :=
  _rate_limiter ;;
  n <- next_nonce ;;
  r <- (fun s => retry_loop (List.length (wire s)) method request_type parameters n 0 s) ;;
  let '(status_code, body) := r in
  (if negb (status_code =? 200) then
     print (MsgResponseText status_code) ;;
     if Response_ok status_code then ret tt
     else raise (Py.HTTPError status_code)
   else ret tt) ;;
  ret body.

Definition _request (request_type : string) (parameters : Params) : M Json :=
  send POST request_type parameters.

(** [Offer(json)] for the body of a response. *)
Definition Offer_of_json (j : Json) : Py.Exn + Offer :=
  match j with
  | JOffer d => Offer_init d
  | JOther => inl (Py.KeyError "id")
  | _ => inl Py.TypeError
  end.

(** The [for] loop of [get_offers]. *)
Fixpoint get_offers_loop (offers_data : list offer_dict)
         (usd_offers btc_offers : list Offer)
  : Py.Exn + (list Offer * list Offer) :=
  match offers_data with
  | [] => inr (usd_offers, btc_offers)
  | offer_dict :: rest =>
      if String.eqb (d_direction offer_dict) "lend"
         && negb (String.eqb (d_rate offer_dict) "0.0")
      then
        match Offer_init offer_dict with
        | inl e => inl e
        | inr offer =>
            if String.eqb (currency offer) "USD"
            then get_offers_loop rest (usd_offers ++ [offer]) btc_offers
            else if String.eqb (currency offer) "BTC"
            then get_offers_loop rest usd_offers (btc_offers ++ [offer])
            else get_offers_loop rest usd_offers btc_offers
        end
      else get_offers_loop rest usd_offers btc_offers
  end.

Definition get_offers : M (list Offer * list Offer) :=
  offers_data <- _request "/v1/offers" NoParams ;;
  match offers_data with
  | JOffers l => lift (get_offers_loop l [] [])
  | JBalances [] => ret ([], [])
  | JBalances (_ :: _) => raise (Py.KeyError "direction")
  | _ => raise Py.TypeError
  end.

Definition cancel_offer (offer : Offer) : M Offer :=
  j <- _request "/v1/offer/cancel" (CancelParams (id offer)) ;;
  lift (Offer_of_json j).

Definition new_offer (currency : string) (amount rate : Q) (period : Z)
  : M Offer :=
  j <- _request "/v1/offer/new" (NewOfferParams currency amount rate period) ;;
  lift (Offer_of_json j).

End BitfinexAPI.

(** ** [adjust_offers], the same in [cascadebot.py], [BFClient.py] and
      [lending.py] *)

(** [defaultdict(Decimal)]: the items in insertion order; a key is found
    when it is numerically equal. *)
Definition defaultdict : Type := list (Q * Q).

(** [d[key] += amount]; a missing key starts at [Decimal()], zero. *)
Fixpoint defaultdict_iadd (d : defaultdict) (key amount : Q) : defaultdict :=
  match d with
  | [] => [(key, (0 + amount)%Q)]
  | (k, v) :: rest =>
      if Py.Qeqb k key then (k, (v + amount)%Q) :: rest
      else (k, v) :: defaultdict_iadd rest key amount
  end.

Module Rebalancer.

Section WithOffers.

(** [offer.get_new_rate()], the method of whichever [Offer] class the
    offers come from. *)
Variable get_new_rate : Offer -> M (option Q).

(** [for offer in offers: ...] *)
Fixpoint cancel_loop (offers : list Offer) (new_offer_amounts : defaultdict)
  : M defaultdict :=
  match offers with
  | [] => ret new_offer_amounts
  | offer :: rest =>
      new_rate <- get_new_rate offer ;;
      match new_rate with
      | Some new_rate =>
          cancelled_offer <- BitfinexAPI.cancel_offer offer ;;
          cancel_loop rest
            (defaultdict_iadd new_offer_amounts new_rate (amount cancelled_offer))
      | None => cancel_loop rest new_offer_amounts
      end
  end.

(** What the second loop does with one bucket. *)
Definition submit (currency : string) (lend_period : Z) (minimum_amount : Q)
           (item : Q * Q) : M unit :=
  let (rate, amount) := item in
  if Py.Qltb minimum_amount amount then
    o <- BitfinexAPI.new_offer currency amount rate lend_period ;;
    print (MsgOffer o)
  else print (MsgSkip rate currency amount).

(** [for rate, amount in new_offer_amounts.items(): ...] *)
Fixpoint submit_loop (currency : string) (lend_period : Z) (minimum_amount : Q)
         (items : defaultdict) : M unit :=
  match items with
  | [] => ret tt
  | item :: rest =>
      submit currency lend_period minimum_amount item ;;
      submit_loop currency lend_period minimum_amount rest
  end.

Definition adjust_offers (offers : list Offer) (lend_period : Z)
           (minimum_amount : Q) : M unit :=
  match offers with
  | [] => ret tt
  | first :: _ =>
      let currency := currency first in
      new_offer_amounts <- cancel_loop offers [] ;;
      submit_loop currency lend_period minimum_amount new_offer_amounts
  end.

End WithOffers.

End Rebalancer.

(** ** [cascadebot.py] *)

Module cascadebot.

(** Modelled from the spec: the [config] module is not among the sources;
    per currency it gives the minimum rate, the rate decrement and the decay
    multiplier as decimals and the decrement interval as a duration. *)
Record Config : Type := mk_Config {
  USD_MINIMUM_RATE_PERCENT : Q;
  USD_RATE_REDUCTION_INTERVAL : Z;
  USD_RATE_DECREMENT_PERCENT : Q;
  USD_RATE_EXPONENTIAL_DECAY_MULTIPLIER : Q;
  BTC_MINIMUM_RATE_PERCENT : Q;
  BTC_RATE_REDUCTION_INTERVAL : Z;
  BTC_RATE_DECREMENT_PERCENT : Q;
  BTC_RATE_EXPONENTIAL_DECAY_MULTIPLIER : Q
}.

Section WithConfig.

Variable config : Config.

(** The branch on [self.currency] at the head of [get_new_rate]:
    [(min_rate, rate_decrement, decay_multiplier, decrement_interval)]. *)
Definition decay_parameters (currency : string) : Py.Exn + (Q * Q * Q * Py.Val) :=
  if String.eqb currency "USD" then
    inr (USD_MINIMUM_RATE_PERCENT config,
         USD_RATE_DECREMENT_PERCENT config,
         USD_RATE_EXPONENTIAL_DECAY_MULTIPLIER config,
         Py.Timedelta (USD_RATE_REDUCTION_INTERVAL config))
  else if String.eqb currency "BTC" then
    inr (BTC_MINIMUM_RATE_PERCENT config,
         BTC_RATE_DECREMENT_PERCENT config,
         BTC_RATE_EXPONENTIAL_DECAY_MULTIPLIER config,
         Py.Timedelta (BTC_RATE_REDUCTION_INTERVAL config))
  else inl (Py.Exception "Unrecognized currency string").

Definition get_new_rate (self : Offer) : M (option Q) :=
  p <- lift (decay_parameters (currency self)) ;;
  let '(min_rate, rate_decrement, decay_multiplier, decrement_interval) := p in
  if Py.Qleb (rate self) min_rate then ret None else
  now <- utcnow ;;
  let time_elapsed := now - submitted_at self in
  intervals_elapsed <- lift (Py.timedelta_floordiv time_elapsed decrement_interval) ;;
  too_early <- lift (Py.lt intervals_elapsed (Py.Int 1)) ;;
  if too_early : bool then ret None else
  n <- lift (Py.range intervals_elapsed) ;;
  let new_rate := decay_loop min_rate rate_decrement decay_multiplier n (rate self) in
  ret (Some (Py.max new_rate min_rate)).

(** The [for] loop of [get_available_balances]. *)
Fixpoint balances_loop (balances_data : list balance_dict)
         (usd_available btc_available : Q) : Py.Exn + (Q * Q) :=
  match balances_data with
  | [] => inr (usd_available, btc_available)
  | balance_data :: rest =>
      if String.eqb (b_type balance_data) "deposit" then
        if String.eqb (b_currency balance_data) "usd" then
          match Py.Decimal (b_available balance_data) with
          | inl e => inl e
          | inr usd_available => balances_loop rest usd_available btc_available
          end
        else if String.eqb (b_currency balance_data) "btc" then
          match Py.Decimal (b_available balance_data) with
          | inl e => inl e
          | inr btc_available => balances_loop rest usd_available btc_available
          end
        else balances_loop rest usd_available btc_available
      else balances_loop rest usd_available btc_available
  end.

Definition get_available_balances : M (Q * Q) :=
  balances_data <- BitfinexAPI._request "/v1/balances" NoParams ;;
  match balances_data with
  | JBalances l => lift (balances_loop l 0 0)
  | JOffers [] => ret (0%Q, 0%Q)
  | JOffers (_ :: _) => raise (Py.KeyError "type")
  | _ => raise Py.TypeError
  end.

Definition adjust_offers := Rebalancer.adjust_offers get_new_rate.

End WithConfig.

End cascadebot.

(** ** [BFClient.py] *)

Module BFClient.

Definition decay_parameters (currency : string) : Py.Exn + (Q * Q * Q * Py.Val) :=
  if String.eqb currency "USD" then inr (0%Q, 1%Q, 1%Q, Py.Int 1)
  else if String.eqb currency "BTC" then inr (1%Q, 1%Q, 1%Q, Py.Int 1)
  else inl (Py.Exception "Unrecognized currency string").

Definition get_new_rate (self : Offer) : M (option Q) :=
  p <- lift (decay_parameters (currency self)) ;;
  let '(min_rate, rate_decrement, decay_multiplier, decrement_interval) := p in
  if Py.Qleb (rate self) min_rate then ret None else
  now <- utcnow ;;
  let time_elapsed := now - submitted_at self in
  intervals_elapsed <- lift (Py.timedelta_floordiv time_elapsed decrement_interval) ;;
  too_early <- lift (Py.lt intervals_elapsed (Py.Int 1)) ;;
  if too_early : bool then ret None else
  n <- lift (Py.range intervals_elapsed) ;;
  let new_rate := decay_loop min_rate rate_decrement decay_multiplier n (rate self) in
  ret (Some (Py.max new_rate min_rate)).

(** The [for] loop of [get_available_balances]. *)
Fixpoint balances_loop (balances_data : list balance_dict)
         (usd_available usd_amount : Q) : Py.Exn + (Q * Q) :=
  match balances_data with
  | [] => inr (usd_available, usd_amount)
  | balance_data :: rest =>
      if String.eqb (b_type balance_data) "deposit" then
        if String.eqb (b_currency balance_data) "usd" then
          match Py.Decimal (b_available balance_data) with
          | inl e => inl e
          | inr usd_available =>
              match Py.Decimal (b_amount balance_data) with
              | inl e => inl e
              | inr usd_amount => balances_loop rest usd_available usd_amount
              end
          end
        else balances_loop rest usd_available usd_amount
      else balances_loop rest usd_available usd_amount
  end.

Definition get_available_balances : M (Q * Q) :=
  balances_data <- BitfinexAPI._request "/v1/balances" NoParams ;;
  match balances_data with
  | JBalances l => lift (balances_loop l 0 0)
  | JOffers [] => ret (0%Q, 0%Q)
  | JOffers (_ :: _) => raise (Py.KeyError "type")
  | _ => raise Py.TypeError
  end.

Definition _get (request_type : string) (parameters : Params) : M Json :=
  BitfinexAPI.send GET request_type parameters.

Definition adjust_offers := Rebalancer.adjust_offers get_new_rate.

End BFClient.

(** ** [lending.py] *)

Module lending.

(** The offers come from [BFClient.BitfinexAPI]. *)
Definition adjust_offers := Rebalancer.adjust_offers BFClient.get_new_rate.

End lending.


(** ** Observations used by the statements *)


(** The state [get_new_rate] leaves after its one reading of the clock. *)
Definition after_reading (s : State) : State :=
  match lags s with
  | e :: rest => set_clock (clock s + e) rest s
  | [] => s
  end.

(** The state a run ends in, whether it returns or raises. *)
Definition final {A} (r : Res A) : option State :=
  match r with
  | Ok _ s => Some s
  | Raise _ s => Some s
  | OutOfScript => None
  end.

(** [try: m except Exception: pass] *)
Definition try_except {A} (m : M A) : M unit :=
  fun s =>
    match m s with
    | Ok _ s' => Ok tt s'
    | Raise _ s' => Ok tt s'
    | OutOfScript => OutOfScript
    end.

(** One session of a [BitfinexAPI] object: the requests it makes one after
    the other, whatever comes of each; the result lists, for each request,
    the timestamp the rate limiter recorded for it.  Every method of the
    class makes its request through [send], and nothing else touches the
    nonce counter or the timestamp window. *)
Fixpoint session (requests : list (Method * string * Params)) : M (list Z) :=
  match requests with
  | [] => ret []
  | (method, request_type, parameters) :: rest =>
      try_except (BitfinexAPI.send method request_type parameters) ;;
      t <- (fun s => Ok (last (request_timestamps s) 0) s) ;;
      ts <- session rest ;;
      ret (t :: ts)
  end.

(** The nonces of the HTTP attempts of a trace, in order. *)
Definition nonces (tr : list Event) : list Z :=
  flat_map (fun e => match e with EvHttp _ _ _ n => [n] | _ => [] end) tr.

(** A run of equal neighbours counts once: the attempts of one request
    carry the one payload built for it. *)
Fixpoint uniq (l : list Z) : list Z :=
  match l with
  | a :: rest =>
      match rest with
      | b :: _ => if a =? b then uniq rest else a :: uniq rest
      | [] => [a]
      end
  | [] => []
  end.


(** Sleeps and the messages of the rate limiter and the retry loop. *)
Definition governance (e : Event) : bool :=
  match e with
  | EvSleep _ => true
  | EvPrint (MsgRateLimit _) => true
  | EvPrint (MsgRetry _ _) => true
  | EvPrint (MsgResponseText _) => true
  | _ => false
  end.

(** No time runs backwards between two readings of the clock. *)
Definition nonneg (l : list Z) : Prop := Forall (fun e => 0 <= e) l.

(** The events one request may leave on the trace: those of the governance
    layer and the attempts, each with the method, the path, the parameters
    and the nonce of the request. *)
Definition request_event (method : Method) (path : string) (params : Params)
           (n : Z) (e : Event) : Prop :=
  governance e = true \/ e = EvHttp method path params n.





(** What the retry loop leaves on the trace for the [k] failed attempts
    that follow [j] earlier ones: the attempt, the message and the sleep of
    [2 ^ retry_count] seconds. *)
Fixpoint backoff (method : Method) (path : string) (params : Params) (n : Z)
         (j k : nat) : list Event :=
  match k with
  | O => []
  | S k' =>
      [EvHttp method path params n;
       EvPrint (MsgRetry "Connection failed," (2 ^ Z.of_nat j));
       EvSleep (2 ^ Z.of_nat j * second)]
      ++ backoff method path params n (S j) k'
  end.


(** The time slept on a trace, in microseconds. *)
Definition slept (tr : list Event) : Z :=
  fold_right (fun e acc => match e with EvSleep d => d + acc | _ => acc end) 0 tr.

(** An attempt to submit a new offer for the bucket [item] is on the
    trace. *)
Definition submitted (currency : string) (lend_period : Z) (item : Q * Q)
           (evs : list Event) : Prop :=
  exists n,
    In (EvHttp POST "/v1/offer/new"
               (NewOfferParams currency (snd item) (fst item) lend_period) n)
       evs.

(** The bucket [item] is reported as skipped on the trace. *)
Definition skipped (currency : string) (item : Q * Q) (evs : list Event) : Prop :=
  In (EvPrint (MsgSkip (fst item) currency (snd item))) evs.

(** What the second loop of [adjust_offers] may leave on the trace. *)
Definition bucket_event (currency : string) (lend_period : Z)
           (minimum_amount : Q) (items : list (Q * Q)) (e : Event) : Prop :=
  governance e = true
  \/ (exists o, e = EvPrint (MsgOffer o))
  \/ (exists item n,
        In item items /\ (minimum_amount < snd item)%Q
        /\ e = EvHttp POST "/v1/offer/new"
                 (NewOfferParams currency (snd item) (fst item) lend_period) n)
  \/ (exists item,
        In item items /\ ~ (minimum_amount < snd item)%Q
        /\ e = EvPrint (MsgSkip (fst item) currency (snd item))).

(** C1 as stated: whenever the two offers of a pass get equal new rates, an
    attempt to submit one new offer at that rate for the sum of the two
    cancelled amounts is on the trace the pass leaves. *)
Definition submits_the_sum (get_new_rate : Offer -> M (option Q)) : Prop :=
  forall o1 o2 lend_period minimum_amount s0 s1 s2 s3 s4 r1 r2 c1 c2 s',
    currency o1 = currency o2 ->
    get_new_rate o1 s0 = Ok (Some r1) s1 ->
    BitfinexAPI.cancel_offer o1 s1 = Ok c1 s2 ->
    get_new_rate o2 s2 = Ok (Some r2) s3 ->
    BitfinexAPI.cancel_offer o2 s3 = Ok c2 s4 ->
    (r1 == r2)%Q ->
    final (Rebalancer.adjust_offers get_new_rate [o1; o2] lend_period
                                    minimum_amount s0) = Some s' ->
    exists total n,
      (total == amount c1 + amount c2)%Q
      /\ In (EvHttp POST "/v1/offer/new"
                    (NewOfferParams (currency o1) total r1 lend_period) n)
            (trace s').

(** The skip reports of the buckets [items], in order. *)
Definition skip_reports (currency : string) (items : list (Q * Q)) : list Event :=
  map (fun item => EvPrint (MsgSkip (fst item) currency (snd item))) items.

(** [Offer(d)] for every entry of a list, up to the first that fails. *)
Fixpoint parse_offers (l : list offer_dict) : Py.Exn + list Offer :=
  match l with
  | [] => inr []
  | d :: rest =>
      match Offer_init d with
      | inl e => inl e
      | inr o =>
          match parse_offers rest with
          | inl e => inl e
          | inr os => inr (o :: os)
          end
      end
  end.

(** The entries that pass [select], as offers, in the order of the response,
    split into the USD ones and the BTC ones. *)
Definition partitioned (select : offer_dict -> bool) (response : list offer_dict)
  : Py.Exn + (list Offer * list Offer) :=
  match parse_offers (filter select response) with
  | inl e => inl e
  | inr offers =>
      inr (filter (fun o => String.eqb (currency o) "USD") offers,
           filter (fun o => String.eqb (currency o) "BTC") offers)
  end.

(** The filter in the words of the specification: the direction is "lend"
    and the rate is not zero. *)
Definition lend_at_nonzero_rate (d : offer_dict) : bool :=
  String.eqb (d_direction d) "lend"
  && match Py.Decimal (d_rate d) with
     | inr r => negb (Py.Qeqb r 0)
     | inl _ => true
     end.

(** [listOffers()] in the words of the specification. *)
Definition listOffers (response : list offer_dict)
  : Py.Exn + (list Offer * list Offer) :=
  partitioned lend_at_nonzero_rate response.

(** The filter of [get_offers]: the direction is "lend" and the rate is not
    the text "0.0". *)
Definition lend_not_frr (d : offer_dict) : bool :=
  String.eqb (d_direction d) "lend" && negb (String.eqb (d_rate d) "0.0").

(** The deposit wallet entries of one currency. *)
Definition deposits (currency : string) (l : list balance_dict) : list balance_dict :=
  filter (fun b => String.eqb (b_type b) "deposit"
                   && String.eqb (b_currency b) currency) l.

(** The available balance of the deposit wallet of one currency: that of
    its last entry, zero when it has none. *)
Definition deposit_available (currency : string) (l : list balance_dict)
  : Py.Exn + Q :=
  last (map (fun b => Py.Decimal (b_available b)) (deposits currency l)) (inr 0%Q).

(** The total balance of the deposit wallet of one currency. *)
Definition deposit_amount (currency : string) (l : list balance_dict)
  : Py.Exn + Q :=
  last (map (fun b => Py.Decimal (b_amount b)) (deposits currency l)) (inr 0%Q).

(** Both numbers of a balance entry are decimals. *)
Definition well_formed (b : balance_dict) : Prop :=
  (exists q, Py.Decimal (b_available b) = inr q)
  /\ (exists q, Py.Decimal (b_amount b) = inr q).



(** ** Concrete inputs *)

Module Examples.

Definition hour : Z := 3600 * second.

(** USD decays linearly by 1 an hour down to 0; BTC halves its distance to 1
    every hour. *)
Definition usual_config : cascadebot.Config :=
  cascadebot.mk_Config 0 hour 1 1 1 hour 0 (1 # 2).


Definition usd_offer : Offer := mk_Offer 1 "USD" 5 0 100.

(** A world in which [h] hours have passed since the epoch and the clock
    can be read once. *)
Definition after_hours (h : Z) : State :=
  mk_State (h * hour) [0] [] [] 0 [].





(** A session with a connection that fails twice and a request the
    exchange refuses. *)
Definition flaky_requests : list (Method * string * Params) :=
  [(POST, "/v1/offers"%string, NoParams);
   (POST, "/v1/offer/cancel"%string, CancelParams 7);
   (POST, "/v1/offer/cancel"%string, CancelParams 8);
   (GET, "/v1/lendbook/USD"%string, NoParams)].

Definition flaky_state : State :=
  mk_State (1700000000 * second + 999999) (repeat 3 20)
           [Response 200 (JOffers []); ConnectionFailed; ConnectionFailed;
            Response 200 JOther; Response 400 JOther; Response 200 JOther]
           [] 0 [].

Definition flaky_admitted : list Z :=
  Eval vm_compute in
    match (BitfinexAPI.__init__ ;; session flaky_requests) flaky_state with
    | Ok admitted _ => admitted
    | _ => []
    end.

Definition flaky_final : State :=
  Eval vm_compute in
    match (BitfinexAPI.__init__ ;; session flaky_requests) flaky_state with
    | Ok _ s => s
    | _ => flaky_state
    end.

(** Two USD offers at rate 5, two hours old; the exchange reports 10 and
    20 as the amounts left when it cancels them. *)
Definition twin_offers : list Offer :=
  [mk_Offer 11 "USD" 5 0 100; mk_Offer 12 "USD" 5 0 100].

Definition twin_state : State :=
  mk_State (2 * hour) (repeat 1 8)
           [Response 200 (JOffer (mk_offer_dict 11 "USD" "5.0" "0" "10" "lend"));
            Response 200 (JOffer (mk_offer_dict 12 "USD" "5.0" "0" "20" "lend"));
            Response 200 (JOffer (mk_offer_dict 13 "USD" "3.0" "7200" "30" "lend"))]
           [] 7200 [].

Definition twin_cancelled : State :=
  Eval vm_compute in
    match Rebalancer.cancel_loop (cascadebot.get_new_rate usual_config)
            twin_offers [] twin_state with
    | Ok _ s => s
    | _ => twin_state
    end.

(** Two USD offers at rates 5 and 4, two hours old; the exchange reports 90
    and 40 as the amounts left when it cancels them, and accepts the new
    offer. *)
Definition mixed_offers : list Offer :=
  [mk_Offer 21 "USD" 5 0 100; mk_Offer 22 "USD" 4 0 60].

Definition mixed_state : State :=
  mk_State (2 * hour) (repeat 1 8)
           [Response 200 (JOffer (mk_offer_dict 21 "USD" "5.0" "0" "90" "lend"));
            Response 200 (JOffer (mk_offer_dict 22 "USD" "4.0" "0" "40" "lend"));
            Response 200 (JOffer (mk_offer_dict 23 "USD" "3.0" "7200" "90" "lend"))]
           [] 7200 [].

Definition mixed_buckets : defaultdict :=
  Eval vm_compute in
    match Rebalancer.cancel_loop (cascadebot.get_new_rate usual_config)
            mixed_offers [] mixed_state with
    | Ok buckets _ => buckets
    | _ => []
    end.

Definition mixed_cancelled : State :=
  Eval vm_compute in
    match Rebalancer.cancel_loop (cascadebot.get_new_rate usual_config)
            mixed_offers [] mixed_state with
    | Ok _ s => s
    | _ => mixed_state
    end.

Definition mixed_final : State :=
  Eval vm_compute in
    match cascadebot.adjust_offers usual_config mixed_offers 2 50 mixed_state with
    | Ok _ s => s
    | _ => mixed_state
    end.

(** An offers response: two lend offers in USD, a borrow-side demand, an
    offer at the floating rate, an offer in LTC and a lend offer in BTC. *)
Definition offers_response : list offer_dict :=
  [mk_offer_dict 41 "USD" "5.0" "1444274193.0" "100.0" "lend";
   mk_offer_dict 42 "USD" "9.0" "1444274194.0" "50.0" "loan";
   mk_offer_dict 43 "BTC" "0.0" "1444274195.0" "1.5" "lend";
   mk_offer_dict 44 "LTC" "7.5" "1444274196.0" "30.0" "lend";
   mk_offer_dict 45 "BTC" "2.5" "1444274197.0" "0.75" "lend";
   mk_offer_dict 46 "USD" "4.0" "1444274198.0" "60.0" "lend"].

Definition offers_state : State :=
  mk_State (2 * hour) [1; 1] [Response 200 (JOffers offers_response)] [] 7200 [].

Definition offers_fetched : State :=
  Eval vm_compute in
    match BitfinexAPI._request "/v1/offers" NoParams offers_state with
    | Ok _ s => s
    | _ => offers_state
    end.

(** A balances response with two wallets in USD and two in BTC. *)
Definition balances_response : list balance_dict :=
  [mk_balance_dict "trading" "usd" "10.0" "10.0";
   mk_balance_dict "deposit" "usd" "120.5" "500.0";
   mk_balance_dict "deposit" "btc" "0.25" "2.0";
   mk_balance_dict "exchange" "btc" "1.0" "1.0"].

Definition balances_state : State :=
  mk_State (2 * hour) [1; 1] [Response 200 (JBalances balances_response)] [] 7200 [].

Definition balances_fetched : State :=
  Eval vm_compute in
    match BitfinexAPI._request "/v1/balances" NoParams balances_state with
    | Ok _ s => s
    | _ => balances_state
    end.

(** An offers response with a lend entry whose rate is written "0.00". *)
Definition zero_rate_response : list offer_dict :=
  [mk_offer_dict 31 "USD" "0.00" "1444274193.0" "100.0" "lend"].

(** A balances response with a BTC deposit wallet only. *)
Definition btc_balances : list balance_dict :=
  [mk_balance_dict "deposit" "btc" "2.0" "3.0"].

Definition btc_balances_state : State :=
  mk_State (2 * hour) [1; 1] [Response 200 (JBalances btc_balances)] [] 7200 [].

(** Three answers with status 500, then one with status 200. *)
Definition outage_state : State :=
  mk_State (1700000000 * second) [1; 1; 1; 1]
           [Response 500 JOther; Response 500 JOther; Response 500 JOther;
            Response 200 (JOffers [])]
           [] 1700000000 [].

End Examples.

(** ** Further observations *)

(** What the first loop of [adjust_offers] cancels: for each offer that
    gets a new rate, that rate and the amount the exchange reports for the
    cancelled offer, in the order of the offers.  It is the loop itself
    without its dictionary. *)
Fixpoint cancellations (get_new_rate : Offer -> M (option Q))
         (offers : list Offer) : M (list (Q * Q)) :=
  match offers with
  | [] => ret []
  | offer :: rest =>
      new_rate <- get_new_rate offer ;;
      match new_rate with
      | Some new_rate =>
          cancelled_offer <- BitfinexAPI.cancel_offer offer ;;
          pairs <- cancellations get_new_rate rest ;;
          ret ((new_rate, amount cancelled_offer) :: pairs)
      | None => cancellations get_new_rate rest
      end
  end.

(** [d[key] += amount] for each pair, in order. *)
Definition aggregate (d : defaultdict) (pairs : list (Q * Q)) : defaultdict :=
  fold_left (fun d p => defaultdict_iadd d (fst p) (snd p)) pairs d.

(** The sum of the amounts of a list of items. *)
Definition total (items : list (Q * Q)) : Q :=
  fold_right (fun p acc => (snd p + acc)%Q) 0%Q items.

(** The sum of the amounts of the items whose rate is numerically [r]. *)
Definition amount_at (r : Q) (items : list (Q * Q)) : Q :=
  fold_right (fun p acc => if Py.Qeqb (fst p) r then (snd p + acc)%Q else acc)
             0%Q items.

(** No two keys of the dictionary are numerically equal. *)
Definition distinct_keys (d : defaultdict) : Prop :=
  ForallOrdPairs (fun p q => ~ (fst p == fst q)%Q) d.

(** An attempt to submit a new offer. *)
Definition is_new_offer (e : Event) : bool :=
  match e with
  | EvHttp _ path _ _ => String.eqb path "/v1/offer/new"
  | _ => false
  end.

(** The balance entries [get_available_balances] of [cascadebot.py]
    looks at. *)
Definition relevant (b : balance_dict) : bool :=
  String.eqb (b_type b) "deposit"
  && (String.eqb (b_currency b) "usd" || String.eqb (b_currency b) "btc").

(** An attempt to cancel an offer. *)
Definition is_cancel (e : Event) : bool :=
  match e with
  | EvHttp _ path _ _ => String.eqb path "/v1/offer/cancel"
  | _ => false
  end.

(** ** The first loop of [main] in [lending.py] *)

Module lendbook.

(** One bid of the [/v1/lendbook] response. *)
Record bid_dict : Type := mk_bid_dict {
  bid_rate : string;
  bid_amount : string;
  bid_period : Z;
  bid_timestamp : string;
  bid_frr : string
}.

(** [for bid in list(bids): if bid['frr'] == 'Yes': bids.pop()]: the loop
    runs over a copy, [snapshot], and pops the last element of [bids];
    [None] stands for the [IndexError] of a pop from an empty list. *)
Fixpoint pop_frr (snapshot bids : list bid_dict) : option (list bid_dict) :=
  match snapshot with
  | [] => Some bids
  | bid :: rest =>
      if String.eqb (bid_frr bid) "Yes" then
        match bids with
        | [] => None
        | _ :: _ => pop_frr rest (removelast bids)
        end
      else pop_frr rest bids
  end.

(** The bids at the floating rate. *)
Definition frr_bids (bids : list bid_dict) : list bid_dict :=
  filter (fun bid => String.eqb (bid_frr bid) "Yes") bids.

End lendbook.

(** ** Further concrete inputs *)

Module MoreExamples.

(** An offer at its floor, and one submitted an hour after the clock of
    [Examples.after_hours 2]. *)
Definition floor_offer : Offer := mk_Offer 51 "USD" 0 0 100.
Definition future_offer : Offer := mk_Offer 52 "USD" 5 (3 * Examples.hour) 100.



(** Two failed connections, then an answer with status 204. *)
Definition retry_state : State :=
  mk_State (2 * Examples.hour) [1; 1]
           [ConnectionFailed; ConnectionFailed; Response 204 JOther;
            Response 200 (JOffers [])] [] 7200 [].

Definition retry_admitted : State :=
  Eval vm_compute in
    match BitfinexAPI._rate_limiter retry_state with
    | Ok _ s => s
    | _ => retry_state
    end.

(** Two USD offers two hours old; the exchange cancels the first and
    refuses to cancel the second. *)
Definition refused_state : State :=
  mk_State (2 * Examples.hour) (repeat 1 8)
           [Response 200 (JOffer (mk_offer_dict 21 "USD" "5.0" "0" "90" "lend"));
            Response 400 JOther;
            Response 200 (JOffer (mk_offer_dict 23 "USD" "3.0" "7200" "90" "lend"))]
           [] 7200 [].

Definition refused_final : State :=
  Eval vm_compute in
    match cascadebot.adjust_offers Examples.usual_config Examples.mixed_offers 2 50
            refused_state with
    | Raise _ s => s
    | _ => refused_state
    end.

(** An offers response whose second entry, in a currency the bot does not
    lend, has a rate that is no decimal. *)
Definition malformed_response : list offer_dict :=
  [mk_offer_dict 61 "USD" "5.0" "1444274193.0" "100.0" "lend";
   mk_offer_dict 62 "LTC" "n/a" "1444274194.0" "30.0" "lend";
   mk_offer_dict 63 "BTC" "2.5" "1444274195.0" "0.75" "lend"].

(** A balances response whose trading wallet has an amount that is no
    decimal. *)
Definition odd_balances : list balance_dict :=
  [mk_balance_dict "trading" "usd" "n/a" "n/a";
   mk_balance_dict "deposit" "usd" "120.5" "500.0";
   mk_balance_dict "deposit" "eur" "oops" "1.0";
   mk_balance_dict "deposit" "btc" "0.25" "2.0"].

(** A lendbook whose first bid is at the floating rate. *)
Definition bids : list lendbook.bid_dict :=
  [lendbook.mk_bid_dict "0.0" "5000.0" 30 "1444257541.0" "Yes";
   lendbook.mk_bid_dict "9.1" "300.0" 2 "1444257542.0" "No";
   lendbook.mk_bid_dict "8.5" "120.0" 7 "1444257543.0" "No"].

End MoreExamples.

(** * Properties *)

(** ** Comparisons of decimals *)

Lemma Qltb_lt (a b : Q) : Py.Qltb a b = true <-> (a < b)%Q.
Proof.
  unfold Py.Qltb. rewrite Qlt_alt.
  destruct (a ?= b)%Q; split; congruence.
Qed.


Lemma Qleb_le (a b : Q) : Py.Qleb a b = true <-> (a <= b)%Q.
Proof.
  unfold Py.Qleb. rewrite Qle_alt.
  destruct (a ?= b)%Q; split; congruence.
Qed.

Lemma Qleb_gt (a b : Q) : Py.Qleb a b = false <-> (b < a)%Q.
Proof.
  unfold Py.Qleb. rewrite Qgt_alt.
  destruct (a ?= b)%Q; split; congruence.
Qed.

Lemma Qeqb_eq (a b : Q) : Py.Qeqb a b = true <-> (a == b)%Q.
Proof.
  unfold Py.Qeqb. rewrite Qeq_alt.
  destruct (a ?= b)%Q; split; congruence.
Qed.



(** ** The decay loop *)




(** ** [get_new_rate] in [cascadebot.py] *)




(** ** Exponential decay: a rate decrement of zero and a multiplier in
      [0, 1) *)

Section ExponentialDecay.

Open Scope Q_scope.

Variables min_rate d m rate0 : Q.
Hypothesis Hd : d == 0.
Hypothesis Hm0 : 0 <= m.
Hypothesis Hm1 : m < 1.
Hypothesis Hr : min_rate < rate0.

Let x (n : nat) : Q := decay_loop min_rate d m n rate0.











End ExponentialDecay.





(** ** [get_new_rate] in [BFClient.py] *)

(** C10.  For an offer in USD or BTC, [get_new_rate] of [BFClient.py] never
    returns a new rate: at or below the floor (0 for USD, 1 for BTC) it
    returns [None] without reading the clock, above the floor the elapsed
    time floor-divided by the integer 1 is a timedelta and comparing it with
    the integer 1 raises [TypeError]. *)
Theorem BFClient_get_new_rate_never_returns_a_rate self s :
  currency self = "USD"%string \/ currency self = "BTC"%string ->
  let floor := if String.eqb (currency self) "USD" then 0%Q else 1%Q in
  ((rate self <= floor)%Q -> BFClient.get_new_rate self s = Ok None s)
  /\ ((floor < rate self)%Q -> lags s <> [] ->
      BFClient.get_new_rate self s = Raise Py.TypeError (after_reading s))
  /\ (forall r s', BFClient.get_new_rate self s <> Ok (Some r) s').
Proof.
  intros Hc floor.
  assert (Hp : BFClient.decay_parameters (currency self)
               = inr (floor, 1%Q, 1%Q, Py.Int 1)).
  { unfold BFClient.decay_parameters, floor.
    destruct Hc as [-> | ->]; reflexivity. }
  unfold BFClient.get_new_rate, bind. rewrite Hp. cbn [lift ret].
  split; [| split].
  - intros Hle. apply Qleb_le in Hle. now rewrite Hle.
  - intros Hgt Hl. apply Qleb_gt in Hgt. rewrite Hgt.
    unfold utcnow, after_reading. destruct (lags s) as [| e rest]; [congruence |].
    reflexivity.
  - intros r s'. destruct (Py.Qleb (rate self) floor); [discriminate |].
    unfold utcnow. destruct (lags s) as [| e rest]; discriminate.
Qed.

Lemma BFClient_get_new_rate_never_returns_a_rate_witness :
  ((rate Examples.usd_offer <= 0)%Q ->
   BFClient.get_new_rate Examples.usd_offer (Examples.after_hours 2)
   = Ok None (Examples.after_hours 2))
  /\ ((0 < rate Examples.usd_offer)%Q ->
      lags (Examples.after_hours 2) <> [] ->
      BFClient.get_new_rate Examples.usd_offer (Examples.after_hours 2)
      = Raise Py.TypeError (after_reading (Examples.after_hours 2)))
  /\ (forall r s',
        BFClient.get_new_rate Examples.usd_offer (Examples.after_hours 2)
        <> Ok (Some r) s').
Proof.
  apply (BFClient_get_new_rate_never_returns_a_rate Examples.usd_offer
           (Examples.after_hours 2)).
  left. reflexivity.
Defined.

(** ** Runs of the monad *)

(** Reads the fields of an updated state. *)
Ltac fields :=
  cbn [clock lags wire trace nonce request_timestamps
       emit set_clock set_wire set_nonce set_request_timestamps] in *.

Lemma bind_final {A B} (m : M A) (k : A -> M B) s s' :
  final (bind m k s) = Some s' ->
  (exists e, m s = Raise e s')
  \/ (exists a s1, m s = Ok a s1 /\ final (k a s1) = Some s').
Proof.
  unfold bind. destruct (m s) as [a s1 | e s1 |]; simpl; intros H.
  - right. eauto.
  - left. exists e. congruence.
  - discriminate.
Qed.

Lemma bind_Ok {A B} (m : M A) (k : A -> M B) s b s' :
  bind m k s = Ok b s' -> exists a s1, m s = Ok a s1 /\ k a s1 = Ok b s'.
Proof.
  unfold bind. destruct (m s) as [a s1 | e s1 |]; intros H; try discriminate.
  eauto.
Qed.

(** ** The rate limiter *)

Lemma evict_spec expire ts :
  exists dropped,
    ts = dropped ++ BitfinexAPI.evict expire ts
    /\ Forall (fun t => t < expire) dropped
    /\ expire <= hd expire (BitfinexAPI.evict expire ts).
Proof.
  induction ts as [| t ts (dropped & E & F & H)]; simpl.
  - exists []. repeat split; [constructor | lia].
  - destruct (Z.ltb_spec t expire) as [Hlt | Hge].
    + exists (t :: dropped). simpl. split; [now rewrite <- E |].
      split; [now constructor | assumption].
    + exists []. repeat split; [constructor | simpl; lia].
Qed.

Lemma rate_limiter_loop_spec fuel s :
  match BitfinexAPI.rate_limiter_loop fuel s with
  | Ok _ s' =>
      nonce s' = nonce s /\ wire s' = wire s
      /\ (exists evs, trace s' = trace s ++ evs
                      /\ Forall (fun e => governance e = true) evs)
      /\ (nonneg (lags s) ->
          exists dropped,
            request_timestamps s = dropped ++ request_timestamps s'
            /\ Forall (fun t => t < clock s' - BitfinexAPI.rate_limit_interval) dropped
            /\ (List.length (request_timestamps s')
                < BitfinexAPI.max_requests_per_interval)%nat
            /\ clock s <= clock s' /\ nonneg (lags s'))
  | Raise _ _ => False
  | OutOfScript => True
  end.
Proof.
  revert s. induction fuel as [| fuel IH]; intros s; [exact I |].
  cbn [BitfinexAPI.rate_limiter_loop]. unfold bind at 1, utcnow.
  destruct (lags s) as [| e rest] eqn:Hl; [exact I |].
  set (now := clock s + e).
  set (expire := now - BitfinexAPI.rate_limit_interval).
  cbn [request_timestamps set_clock set_request_timestamps].
  destruct (evict_spec expire (request_timestamps s)) as (dropped & E & F & H).
  set (kept := BitfinexAPI.evict expire (request_timestamps s)) in *.
  destruct (Nat.leb_spec BitfinexAPI.max_requests_per_interval (List.length kept))
    as [Hfull | Hroom].
  - unfold bind, print, sleep.
    match goal with |- match BitfinexAPI.rate_limiter_loop fuel ?s3 with _ => _ end =>
      specialize (IH s3); destruct (BitfinexAPI.rate_limiter_loop fuel s3)
        as [[] s' | |]; [| exact IH | exact I] end.
    fields. destruct IH as (Hn & Hw & (evs & Ht & Hg) & Hts).
    split; [exact Hn |]. split; [exact Hw |]. split.
    + eexists. split; [rewrite Ht, <- !app_assoc; reflexivity |].
      repeat constructor. exact Hg.
    + intros Hnn. try rewrite Hl in Hnn. inversion Hnn as [| ? ? He Hrest]; subst.
      destruct (Hts Hrest) as (dropped' & E' & F' & Hlen & Hc & Hnn').
      assert (Hd : 0 <= hd 0 kept - expire).
      { destruct kept as [| k kept']; [simpl in Hfull; unfold BitfinexAPI.max_requests_per_interval in Hfull; lia |].
        simpl in H |- *. lia. }
      exists (dropped ++ dropped'). split; [rewrite <- app_assoc, <- E'; exact E |].
      split; [| split; [exact Hlen | split; [unfold now in *; lia | exact Hnn']]].
      apply Forall_app. split; [| exact F'].
      eapply Forall_impl; [| exact F]. intros t Ht'. cbv beta in Ht'.
      unfold expire, now in *. lia.
  - fields.
    split; [reflexivity |]. split; [reflexivity |]. split.
    + exists []. split; [now rewrite app_nil_r | constructor].
    + intros Hnn. try rewrite Hl in Hnn. inversion Hnn as [| ? ? He Hrest]; subst.
      exists dropped. split; [exact E |]. split; [exact F |].
      split; [exact Hroom |]. split; [lia | exact Hrest].
Qed.

Lemma rate_limiter_spec s :
  match BitfinexAPI._rate_limiter s with
  | Ok _ s' =>
      nonce s' = nonce s /\ wire s' = wire s
      /\ (exists evs, trace s' = trace s ++ evs
                      /\ Forall (fun e => governance e = true) evs)
      /\ (nonneg (lags s) ->
          exists dropped kept,
            request_timestamps s = dropped ++ kept
            /\ request_timestamps s' = kept ++ [clock s']
            /\ Forall (fun t => t < clock s' - BitfinexAPI.rate_limit_interval) dropped
            /\ (List.length kept < BitfinexAPI.max_requests_per_interval)%nat
            /\ clock s <= clock s' /\ nonneg (lags s'))
  | Raise _ _ => False
  | OutOfScript => True
  end.
Proof.
  unfold BitfinexAPI._rate_limiter. unfold bind at 1.
  pose proof (rate_limiter_loop_spec (List.length (lags s)) s) as H.
  destruct (BitfinexAPI.rate_limiter_loop (List.length (lags s)) s)
    as [[] s1 | |]; [| exact H | exact I].
  destruct H as (Hn & Hw & Ht & Hts).
  unfold bind, utcnow. destruct (lags s1) as [| e rest] eqn:Hl; [exact I |].
  fields. split; [exact Hn |]. split; [exact Hw |]. split; [exact Ht |].
  intros Hnn. destruct (Hts Hnn) as (dropped & E & F & Hlen & Hc & Hnn').
  inversion Hnn' as [| ? ? He Hrest]; subst.
  exists dropped, (request_timestamps s1).
  split; [exact E |]. split; [reflexivity |].
  split; [| split; [exact Hlen | split; [lia | exact Hrest]]].
  eapply Forall_impl; [| exact F]. intros t Ht'. cbv beta in Ht'. lia.
Qed.

Lemma retry_loop_spec fuel method path params n :
  forall retry_count s,
    match BitfinexAPI.retry_loop fuel method path params n retry_count s with
    | Ok _ s' =>
        nonce s' = nonce s /\ request_timestamps s' = request_timestamps s
        /\ lags s' = lags s /\ clock s <= clock s'
        /\ exists evs,
             trace s' = trace s ++ evs
             /\ Forall (request_event method path params n) evs
             /\ In (EvHttp method path params n) evs
    | Raise _ _ => False
    | OutOfScript => True
    end.
Proof.
  induction fuel as [| fuel IH]; intros retry_count s; [exact I |].
  cbn [BitfinexAPI.retry_loop]. unfold bind at 1, BitfinexAPI.http.
  destruct (wire s) as [| o rest] eqn:Hw; [exact I |].
  assert (Hretry :
    match
      (print (MsgRetry "Connection failed," (2 ^ retry_count)) ;;
       sleep (2 ^ retry_count * second) ;;
       BitfinexAPI.retry_loop fuel method path params n (retry_count + 1))
        (emit (EvHttp method path params n) (set_wire rest s))
    with
    | Ok _ s' =>
        nonce s' = nonce s /\ request_timestamps s' = request_timestamps s
        /\ lags s' = lags s /\ clock s <= clock s'
        /\ exists evs,
             trace s' = trace s ++ evs
             /\ Forall (request_event method path params n) evs
             /\ In (EvHttp method path params n) evs
    | Raise _ _ => False
    | OutOfScript => True
    end).
  { unfold bind, print, sleep.
    match goal with |- match BitfinexAPI.retry_loop fuel _ _ _ _ ?rc ?s3 with _ => _ end =>
      specialize (IH rc s3);
      destruct (BitfinexAPI.retry_loop fuel method path params n rc s3)
        as [r s' | |]; [| exact IH | exact I] end.
    fields. destruct IH as (Hn & Hts & Hl & Hc & evs & Ht & Hf & Hin).
    repeat (split; [assumption |]).
    split.
    - pose proof (Z.pow_nonneg 2 retry_count). unfold second in *. lia.
    - eexists. split; [rewrite Ht, <- !app_assoc; reflexivity |]. split.
      + constructor; [now right |].
        constructor; [now left |]. constructor; [now left | exact Hf].
      + now left. }
  destruct o as [| status_code body].
  - exact Hretry.
  - destruct (BitfinexAPI.Response_ok status_code && (status_code =? 500)) eqn:Hdead.
    + apply andb_prop in Hdead. destruct Hdead as [Hok H500].
      apply Z.eqb_eq in H500. subst. discriminate.
    + unfold ret. fields.
      split; [reflexivity |]. split; [reflexivity |]. split; [reflexivity |].
      split; [lia |].
      exists [EvHttp method path params n]. split; [reflexivity |].
      split; [constructor; [now right | constructor] | now left].
Qed.

(** What one request does to the state, whether it returns or raises. *)
Lemma send_spec method path params s s' :
  final (BitfinexAPI.send method path params s) = Some s' ->
  nonce s' = nonce s + 1
  /\ (exists evs,
        trace s' = trace s ++ evs
        /\ Forall (request_event method path params (nonce s)) evs
        /\ In (EvHttp method path params (nonce s)) evs)
  /\ (nonneg (lags s) ->
      exists dropped kept t,
        request_timestamps s = dropped ++ kept
        /\ request_timestamps s' = kept ++ [t]
        /\ Forall (fun x => x < t - BitfinexAPI.rate_limit_interval) dropped
        /\ (List.length kept < BitfinexAPI.max_requests_per_interval)%nat
        /\ clock s <= t /\ t <= clock s' /\ nonneg (lags s')).
Proof.
  unfold BitfinexAPI.send. unfold bind at 1.
  pose proof (rate_limiter_spec s) as HL.
  destruct (BitfinexAPI._rate_limiter s) as [[] s1 | |];
    [| contradiction | discriminate].
  destruct HL as (Hn1 & _ & (evs1 & Ht1 & Hg1) & Hts1).
  unfold bind at 1, BitfinexAPI.next_nonce. unfold bind at 1.
  pose proof (retry_loop_spec (List.length (wire (set_nonce (nonce s1 + 1) s1)))
                method path params (nonce s1) 0 (set_nonce (nonce s1 + 1) s1)) as HR.
  destruct (BitfinexAPI.retry_loop _ method path params (nonce s1) 0 _)
    as [[status_code body] s2 | |]; [| contradiction | discriminate].
  fields. destruct HR as (Hn2 & Hts2 & Hl2 & Hc2 & evs2 & Ht2 & Hf2 & Hin2).
  rewrite Hn1 in *.
  assert (Hmain : forall evs3, Forall (fun e => governance e = true) evs3 ->
            forall s3, nonce s3 = nonce s2 -> request_timestamps s3 = request_timestamps s2 ->
            lags s3 = lags s2 -> clock s3 = clock s2 -> trace s3 = trace s2 ++ evs3 ->
            nonce s3 = nonce s + 1
            /\ (exists evs,
                  trace s3 = trace s ++ evs
                  /\ Forall (request_event method path params (nonce s)) evs
                  /\ In (EvHttp method path params (nonce s)) evs)
            /\ (nonneg (lags s) ->
                exists dropped kept t,
                  request_timestamps s = dropped ++ kept
                  /\ request_timestamps s3 = kept ++ [t]
                  /\ Forall (fun x => x < t - BitfinexAPI.rate_limit_interval) dropped
                  /\ (List.length kept < BitfinexAPI.max_requests_per_interval)%nat
                  /\ clock s <= t /\ t <= clock s3 /\ nonneg (lags s3))).
  { intros evs3 Hg3 s3 Hn3 Hts3 Hl3 Hc3 Ht3.
    split; [congruence |]. split.
    - exists (evs1 ++ evs2 ++ evs3). split.
      + rewrite Ht3, Ht2, Ht1. now rewrite <- !app_assoc.
      + split.
        * apply Forall_app. split.
          { eapply Forall_impl; [| exact Hg1]. intros e He. now left. }
          apply Forall_app. split; [exact Hf2 |].
          eapply Forall_impl; [| exact Hg3]. intros e He. now left.
        * apply in_or_app. right. apply in_or_app. now left.
    - intros Hnn. destruct (Hts1 Hnn) as (dropped & kept & E & E' & F & Hlen & Hc & Hnn').
      exists dropped, kept, (clock s1).
      split; [exact E |]. split; [congruence |]. split; [exact F |].
      split; [exact Hlen |]. split; [exact Hc |]. split; [lia |]. congruence. }
  destruct (negb (status_code =? 200)).
  - unfold bind, print, ret, raise. destruct (BitfinexAPI.Response_ok status_code);
      simpl; intros H; injection H as <-;
      apply (Hmain [EvPrint (MsgResponseText status_code)]);
      try reflexivity; repeat constructor.
  - unfold bind, ret. simpl. intros H; injection H as <-.
    apply (Hmain []); try reflexivity; [constructor | now rewrite app_nil_r].
Qed.

(** ** The sliding window *)














Lemma evict_length expire ts :
  (List.length (BitfinexAPI.evict expire ts) <= List.length ts)%nat.
Proof.
  induction ts as [| t ts IH]; simpl; [lia |].
  destruct (t <? expire); simpl; lia.
Qed.

(** The mechanism behind C4: when the window holds 60 timestamps none of
    which has expired, the rate limiter announces and sleeps the time the
    oldest one needs to reach the edge of the window, reads the clock again,
    and, once the clock has moved on, drops the oldest timestamp and records
    its own, more than 70 seconds after it. *)
Lemma rate_limiter_blocks s e1 e2 e3 rest oldest others :
  lags s = e1 :: e2 :: e3 :: rest ->
  0 < e2 ->
  request_timestamps s = oldest :: others ->
  List.length others = 59%nat ->
  clock s + e1 - BitfinexAPI.rate_limit_interval <= oldest ->
  let delay := oldest - (clock s + e1 - BitfinexAPI.rate_limit_interval) in
  let t := oldest + BitfinexAPI.rate_limit_interval + e2 + e3 in
  BitfinexAPI._rate_limiter s
  = Ok tt (mk_State t rest (wire s)
             (trace s ++ [EvPrint (MsgRateLimit delay); EvSleep delay])
             (nonce s)
             (BitfinexAPI.evict (oldest + e2) others ++ [t])).
Proof.
  intros Hl He2 Hts Hlen Hin delay t.
  unfold BitfinexAPI._rate_limiter. unfold bind at 1. rewrite Hl.
  cbn [List.length BitfinexAPI.rate_limiter_loop].
  unfold bind at 1, utcnow. rewrite Hl. fields. rewrite Hts.
  cbn [BitfinexAPI.evict].
  destruct (Z.ltb_spec oldest (clock s + e1 - BitfinexAPI.rate_limit_interval))
    as [Hlt | _]; [lia |].
  cbn [List.length]. rewrite Hlen.
  change (BitfinexAPI.max_requests_per_interval <=? 60)%nat with true.
  cbv iota. unfold bind at 1, print. unfold bind at 1, sleep. fields.
  cbn [hd]. fold delay.
  unfold bind at 1, utcnow. fields.
  replace (clock s + e1 + delay + e2 - BitfinexAPI.rate_limit_interval)
    with (oldest + e2) by (unfold delay; lia).
  cbn [BitfinexAPI.evict].
  destruct (Z.ltb_spec oldest (oldest + e2)) as [_ | Hge]; [| lia].
  pose proof (evict_length (oldest + e2) others) as Hk. rewrite Hlen in Hk.
  destruct (Nat.leb_spec BitfinexAPI.max_requests_per_interval
              (List.length (BitfinexAPI.evict (oldest + e2) others)))
    as [Hfull | _];
    [unfold BitfinexAPI.max_requests_per_interval in Hfull; lia |].
  unfold bind, utcnow. fields.
  replace (clock s + e1 + delay + e2 + e3) with t by (unfold t, delay; lia).
  unfold set_request_timestamps, set_clock, emit. fields.
  rewrite <- app_assoc. reflexivity.
Qed.

(** With a window of at most 60 timestamps and a clock that moves on between
    any two readings, the rate limiter returns after at most one sleep: three
    readings of the clock are enough. *)
Lemma rate_limiter_returns s e1 e2 e3 rest :
  lags s = e1 :: e2 :: e3 :: rest ->
  0 < e2 ->
  (List.length (request_timestamps s) <= BitfinexAPI.max_requests_per_interval)%nat ->
  exists s', BitfinexAPI._rate_limiter s = Ok tt s'.
Proof.
  intros Hl He2 Hlen.
  unfold BitfinexAPI._rate_limiter. unfold bind at 1. rewrite Hl.
  cbn [List.length BitfinexAPI.rate_limiter_loop].
  unfold bind at 1, utcnow. rewrite Hl. fields.
  set (expire := clock s + e1 - BitfinexAPI.rate_limit_interval).
  destruct (evict_spec expire (request_timestamps s)) as (dropped & E & _ & Hhd).
  pose proof (evict_length expire (request_timestamps s)) as Hk.
  destruct (BitfinexAPI.evict expire (request_timestamps s)) as [| oldest others]
    eqn:Ek.
  - cbn [List.length Nat.leb BitfinexAPI.max_requests_per_interval].
    unfold bind, utcnow. fields. eauto.
  - destruct (Nat.leb_spec BitfinexAPI.max_requests_per_interval
                (List.length (oldest :: others))) as [Hfull | Hroom].
    + unfold bind at 1, print. unfold bind at 1, sleep. fields.
      unfold bind at 1, utcnow. fields. cbn [hd] in Hhd |- *.
      cbn [BitfinexAPI.evict].
      destruct (Z.ltb_spec oldest
                  (clock s + e1 + (oldest - expire) + e2
                   - BitfinexAPI.rate_limit_interval)) as [_ | Hge];
        [| unfold expire in Hge; lia].
      match goal with |- context [BitfinexAPI.evict ?x others] =>
        pose proof (evict_length x others) as Hk2;
        destruct (Nat.leb_spec BitfinexAPI.max_requests_per_interval
                    (List.length (BitfinexAPI.evict x others))) as [Hfull2 | _]
      end.
      * cbn [List.length] in Hk, Hfull. lia.
      * unfold bind, utcnow. fields. eauto.
    + unfold bind, utcnow. fields. eauto.
Qed.

(** ** Nonces *)

Lemma init_spec s s' :
  BitfinexAPI.__init__ s = Ok tt s' ->
  exists e rest,
    lags s = e :: rest
    /\ s' = mk_State (clock s + e) rest (wire s) (trace s)
                     (Z.quot (clock s + e) second) [].
Proof.
  unfold BitfinexAPI.__init__, bind, utcnow.
  destruct (lags s) as [| e rest]; [discriminate |].
  intros H. injection H as <-. now exists e, rest.
Qed.

Lemma nonces_app a b : nonces (a ++ b) = nonces a ++ nonces b.
Proof. apply flat_map_app. Qed.

Lemma request_nonces method path params n evs :
  Forall (request_event method path params n) evs ->
  exists c,
    nonces evs = repeat n c
    /\ (In (EvHttp method path params n) evs -> (1 <= c)%nat).
Proof.
  induction 1 as [| e evs He _ (c & E & Hin)].
  - exists 0%nat. split; [reflexivity | intros []].
  - destruct He as [Hg | ->].
    + exists c. split.
      * destruct e as [| [] |]; try discriminate; exact E.
      * intros [-> | Hi]; [discriminate | auto].
    + exists (S c). split; [simpl; now rewrite <- E | intros; lia].
Qed.

Lemma uniq_run n c : uniq (repeat n (S c)) = [n].
Proof.
  induction c as [| c IH]; [reflexivity |].
  change (uniq (n :: n :: repeat n c)
          = [n]).
  change (uniq (n :: n :: repeat n c))
    with (if n =? n then uniq (n :: repeat n c) else n :: uniq (n :: repeat n c)).
  rewrite Z.eqb_refl. exact IH.
Qed.

Lemma uniq_snoc_run l n c :
  Forall (fun x => x < n) l -> uniq (l ++ repeat n (S c)) = uniq l ++ [n].
Proof.
  induction l as [| a l IH]; intros H.
  - apply uniq_run.
  - inversion H as [| ? ? Ha Hl]; subst. specialize (IH Hl).
    destruct l as [| b l].
    + change (uniq ([a] ++ repeat n (S c)))
        with (if a =? n then uniq (repeat n (S c)) else a :: uniq (repeat n (S c))).
      destruct (Z.eqb_spec a n) as [-> | _]; [lia |].
      now rewrite uniq_run.
    + change (uniq ((a :: b :: l) ++ repeat n (S c)))
        with (if a =? b then uniq ((b :: l) ++ repeat n (S c))
              else a :: uniq ((b :: l) ++ repeat n (S c))).
      change (uniq (a :: b :: l))
        with (if a =? b then uniq (b :: l) else a :: uniq (b :: l)).
      rewrite IH. now destruct (a =? b).
Qed.

Lemma session_nonces requests :
  forall s new s' tr0 evs0 seed k,
    nonce s = seed + Z.of_nat k ->
    trace s = tr0 ++ evs0 ->
    uniq (nonces evs0) = map (fun i => seed + Z.of_nat i) (seq 0 k) ->
    Forall (fun x => x < nonce s) (nonces evs0) ->
    session requests s = Ok new s' ->
    exists evs,
      trace s' = tr0 ++ evs
      /\ uniq (nonces evs)
         = map (fun i => seed + Z.of_nat i) (seq 0 (k + List.length requests))
      /\ nonce s' = seed + Z.of_nat (k + List.length requests).
Proof.
  induction requests as [| [[method path] params] requests IH];
    intros s new s' tr0 evs0 seed k Hn Ht Hu Hlt Hrun.
  - injection Hrun as <- <-. exists evs0. rewrite Nat.add_0_r. auto.
  - cbn [session] in Hrun.
    apply bind_Ok in Hrun. destruct Hrun as ([] & s1 & Htry & Hrun).
    assert (Hf : final (BitfinexAPI.send method path params s) = Some s1).
    { unfold try_except in Htry.
      destruct (BitfinexAPI.send method path params s); simpl; congruence. }
    destruct (send_spec _ _ _ _ _ Hf) as (Hn1 & (evs & Ht1 & Hf1 & Hin1) & _).
    destruct (request_nonces _ _ _ _ _ Hf1) as (c & Ec & Hc).
    specialize (Hc Hin1). destruct c as [| c]; [lia |].
    apply bind_Ok in Hrun. destruct Hrun as (t & s2 & Hlast & Hrun).
    injection Hlast as <- <-.
    apply bind_Ok in Hrun. destruct Hrun as (ts & s3 & Hrest & Hret).
    injection Hret as <- <-.
    destruct (IH s1 ts s3 tr0 (evs0 ++ evs) seed (S k)) as (evs' & Ht' & Hu' & Hn');
      try assumption.
    + rewrite Hn1, Hn. lia.
    + rewrite Ht1, Ht. now rewrite app_assoc.
    + rewrite nonces_app, Ec, (uniq_snoc_run _ _ _ Hlt), Hu, seq_S, map_app.
      simpl. now rewrite Hn.
    + rewrite nonces_app, Ec. apply Forall_app. split.
      * eapply Forall_impl; [| exact Hlt]. intros x Hx. cbv beta in Hx. lia.
      * apply Forall_forall. intros x Hx. apply repeat_spec in Hx. lia.
    + exists evs'. cbn [List.length].
      replace (k + S (List.length requests))%nat
        with (S k + List.length requests)%nat by lia.
      auto.
Qed.

Lemma consecutive_sorted seed start len :
  StronglySorted Z.lt (map (fun i => seed + Z.of_nat i) (seq start len)).
Proof.
  revert start. induction len as [| len IH]; intros start; simpl.
  - constructor.
  - constructor; [apply IH |].
    apply Forall_forall. intros x Hx. apply in_map_iff in Hx.
    destruct Hx as (i & <- & Hi). apply in_seq in Hi. lia.
Qed.

(** C6.  In one session of a [BitfinexAPI] object the nonce counter starts
    at the whole seconds of the wall clock read by [__init__]; the [i]-th
    request carries that number plus [i] in every attempt it makes; so the
    nonces of the requests are consecutive and strictly increasing. *)
Theorem nonces_strictly_increasing requests s admitted s' :
  (BitfinexAPI.__init__ ;; session requests) s = Ok admitted s' ->
  exists e rest evs,
    lags s = e :: rest
    /\ trace s' = trace s ++ evs
    /\ uniq (nonces evs)
       = map (fun i => Z.quot (clock s + e) second + Z.of_nat i)
             (seq 0 (List.length requests))
    /\ StronglySorted Z.lt (uniq (nonces evs))
    /\ nonce s' = Z.quot (clock s + e) second + Z.of_nat (List.length requests).
Proof.
  intros Hrun.
  apply bind_Ok in Hrun. destruct Hrun as ([] & s0 & Hinit & Hrun).
  destruct (init_spec _ _ Hinit) as (e & rest & Hl & ->).
  pose proof (fun a b c d =>
                session_nonces requests _ _ _ (trace s) []
                  (Z.quot (clock s + e) second) 0%nat a b c d Hrun) as H.
  destruct H as (evs & Ht & Hu & Hn);
    [simpl; lia | simpl; now rewrite app_nil_r | reflexivity | constructor |].
  exists e, rest, evs. simpl in Hu, Hn.
  repeat (split; [assumption |]). split; [| exact Hn].
  rewrite Hu. apply consecutive_sorted.
Qed.

Lemma nonces_strictly_increasing_witness :
  exists e rest evs,
    lags Examples.flaky_state = e :: rest
    /\ trace Examples.flaky_final = trace Examples.flaky_state ++ evs
    /\ uniq (nonces evs)
       = map (fun i => Z.quot (clock Examples.flaky_state + e) second + Z.of_nat i)
             (seq 0 (List.length Examples.flaky_requests))
    /\ StronglySorted Z.lt (uniq (nonces evs))
    /\ nonce Examples.flaky_final
       = Z.quot (clock Examples.flaky_state + e) second
         + Z.of_nat (List.length Examples.flaky_requests).
Proof.
  apply (nonces_strictly_increasing Examples.flaky_requests Examples.flaky_state
           Examples.flaky_admitted Examples.flaky_final).
  vm_compute. reflexivity.
Defined.

(** ** Retries *)


(** A response with status 500 is falsy, so the test
    [request and request.status_code == 500] fails and the loop ends with
    that response. *)
Lemma retry_loop_keeps_500 fuel method path params n retry_count s body rest :
  wire s = Response 500 body :: rest ->
  BitfinexAPI.retry_loop (S fuel) method path params n retry_count s
  = Ok (500, body) (emit (EvHttp method path params n) (set_wire rest s)).
Proof.
  intros Hw. cbn [BitfinexAPI.retry_loop]. unfold bind, BitfinexAPI.http.
  rewrite Hw. reflexivity.
Qed.

(** Whatever the request, a first answer with status 500 ends it: one
    attempt, no sleep, [HTTPError]. *)
Lemma request_gives_up_on_500 request_type parameters s s1 body rest :
  BitfinexAPI._rate_limiter s = Ok tt s1 ->
  wire s1 = Response 500 body :: rest ->
  BitfinexAPI._request request_type parameters s
  = Raise (Py.HTTPError 500)
      (emit (EvPrint (MsgResponseText 500))
         (emit (EvHttp POST request_type parameters (nonce s1))
            (set_wire rest (set_nonce (nonce s1 + 1) s1)))).
Proof.
  intros Hl Hw. unfold BitfinexAPI._request, BitfinexAPI.send.
  unfold bind at 1. rewrite Hl.
  unfold bind at 1, BitfinexAPI.next_nonce. unfold bind at 1.
  cbn [wire set_nonce]. rewrite Hw. cbn [List.length].
  rewrite (retry_loop_keeps_500 _ _ _ _ _ _ _ body rest) by exact Hw.
  reflexivity.
Qed.

(** C5, at the failing input.  The exchange answers three times with
    status 500 and then with status 200: [_request] makes one attempt,
    never sleeps, and raises [HTTPError] for the first 500. *)
Theorem request_500_not_retried :
  BitfinexAPI._request "/v1/offers" NoParams Examples.outage_state
  = Raise (Py.HTTPError 500)
      (mk_State (1700000000 * second + 2) [1; 1]
         [Response 500 JOther; Response 500 JOther; Response 200 (JOffers [])]
         [EvHttp POST "/v1/offers" NoParams 1700000000;
          EvPrint (MsgResponseText 500)]
         1700000001 [1700000000 * second + 2]).
Proof. vm_compute. reflexivity. Qed.

Example three_failures_sleep_seven_seconds :
  slept (backoff POST "/v1/offers" NoParams 0 0 3) = (2 ^ 0 + 2 ^ 1 + 2 ^ 2) * second.
Proof. reflexivity. Qed.

(** ** Rebalancing *)

Lemma request_spec request_type parameters s s' :
  final (BitfinexAPI._request request_type parameters s) = Some s' ->
  exists evs,
    trace s' = trace s ++ evs
    /\ Forall (request_event POST request_type parameters (nonce s)) evs
    /\ In (EvHttp POST request_type parameters (nonce s)) evs.
Proof. intros H. now destruct (send_spec _ _ _ _ _ H) as (_ & ? & _). Qed.

Lemma final_bind_lift {A B} (m : M A) (f : A -> Py.Exn + B) s s' :
  final ((x <- m ;; lift (f x)) s) = Some s' -> final (m s) = Some s'.
Proof.
  unfold bind. destruct (m s) as [a s1 | e s1 |]; simpl; [| trivial | trivial].
  destruct (f a); simpl; trivial.
Qed.

Lemma new_offer_spec currency amount rate period s s' :
  final (BitfinexAPI.new_offer currency amount rate period s) = Some s' ->
  exists evs,
    trace s' = trace s ++ evs
    /\ Forall (request_event POST "/v1/offer/new"
                 (NewOfferParams currency amount rate period) (nonce s)) evs
    /\ In (EvHttp POST "/v1/offer/new"
             (NewOfferParams currency amount rate period) (nonce s)) evs.
Proof.
  intros H. apply request_spec.
  unfold BitfinexAPI.new_offer in H. now apply final_bind_lift in H.
Qed.

Lemma bucket_event_incl currency lend_period minimum_amount items items' e :
  incl items items' ->
  bucket_event currency lend_period minimum_amount items e ->
  bucket_event currency lend_period minimum_amount items' e.
Proof.
  intros Hi [H | [H | [(item & n & Hin & Hlt & ->) | (item & Hin & Hle & ->)]]].
  - now left.
  - right. now left.
  - right. right. left. exists item, n. auto.
  - right. right. right. exists item. auto.
Qed.

Lemma submit_skip currency lend_period minimum_amount rate amount s :
  ~ (minimum_amount < amount)%Q ->
  Rebalancer.submit currency lend_period minimum_amount (rate, amount) s
  = Ok tt (emit (EvPrint (MsgSkip rate currency amount)) s).
Proof.
  intros H. unfold Rebalancer.submit.
  destruct (Py.Qltb minimum_amount amount) eqn:E; [| reflexivity].
  apply Qltb_lt in E. contradiction.
Qed.

Lemma submit_new currency lend_period minimum_amount rate amount s :
  (minimum_amount < amount)%Q ->
  Rebalancer.submit currency lend_period minimum_amount (rate, amount) s
  = (o <- BitfinexAPI.new_offer currency amount rate lend_period ;;
     print (MsgOffer o)) s.
Proof.
  intros H. unfold Rebalancer.submit. apply Qltb_lt in H. now rewrite H.
Qed.

Lemma submit_spec currency lend_period minimum_amount item s s' :
  final (Rebalancer.submit currency lend_period minimum_amount item s) = Some s' ->
  exists evs,
    trace s' = trace s ++ evs
    /\ Forall (bucket_event currency lend_period minimum_amount [item]) evs
    /\ (Rebalancer.submit currency lend_period minimum_amount item s = Ok tt s' ->
        ((minimum_amount < snd item)%Q -> submitted currency lend_period item evs)
        /\ (~ (minimum_amount < snd item)%Q -> skipped currency item evs))
    /\ (~ (minimum_amount < snd item)%Q ->
        Rebalancer.submit currency lend_period minimum_amount item s = Ok tt s').
Proof.
  destruct item as [rate amount]. cbn [fst snd].
  destruct (Qlt_le_dec minimum_amount amount) as [Hlt | Hle].
  - rewrite (submit_new _ _ _ _ _ _ Hlt). intros Hf.
    apply bind_final in Hf.
    destruct Hf as [(e & He) | (o & s1 & Ho & Hp)].
    + assert (Hf : final (BitfinexAPI.new_offer currency amount rate lend_period s)
                   = Some s') by now rewrite He.
      destruct (new_offer_spec _ _ _ _ _ _ Hf) as (evs & Ht & Hfa & Hin).
      exists evs. split; [exact Ht |]. split.
      * eapply Forall_impl; [| exact Hfa].
        intros ev [Hg | ->]; [now left |].
        right. right. left. exists (rate, amount), (nonce s).
        split; [now left | now split].
      * split; [| intros Hn; contradiction].
        unfold bind. rewrite He. discriminate.
    + assert (Hf : final (BitfinexAPI.new_offer currency amount rate lend_period s)
                   = Some s1) by now rewrite Ho.
      destruct (new_offer_spec _ _ _ _ _ _ Hf) as (evs & Ht & Hfa & Hin).
      unfold print in Hp. simpl in Hp. injection Hp as <-.
      exists (evs ++ [EvPrint (MsgOffer o)]). split.
      * cbn [emit trace]. rewrite Ht. now rewrite app_assoc.
      * split.
        { apply Forall_app. split.
          - eapply Forall_impl; [| exact Hfa].
            intros ev [Hg | ->]; [now left |].
            right. right. left. exists (rate, amount), (nonce s).
            split; [now left | now split].
          - constructor; [| constructor]. right. left. now exists o. }
        split; [| intros Hn; contradiction].
        intros _. split; [| intros Hn; contradiction].
        intros _. exists (nonce s). cbn [fst snd]. apply in_or_app. now left.
  - assert (Hn : ~ (minimum_amount < amount)%Q) by (intros H; lra).
    rewrite (submit_skip _ _ _ _ _ _ Hn). simpl. intros H. injection H as <-.
    exists [EvPrint (MsgSkip rate currency amount)].
    split; [reflexivity |]. split.
    + constructor; [| constructor]. right. right. right.
      exists (rate, amount). split; [now left | now split].
    + split; [| reflexivity].
      intros _. split; [intros Hlt; contradiction |]. intros _. now left.
Qed.

Lemma submitted_app currency lend_period item evs evs' :
  submitted currency lend_period item evs \/ submitted currency lend_period item evs' ->
  submitted currency lend_period item (evs ++ evs').
Proof.
  intros [(n & H) | (n & H)]; exists n; apply in_or_app; auto.
Qed.

Lemma submit_loop_spec currency lend_period minimum_amount items :
  forall s s',
    final (Rebalancer.submit_loop currency lend_period minimum_amount items s)
    = Some s' ->
    exists evs,
      trace s' = trace s ++ evs
      /\ Forall (bucket_event currency lend_period minimum_amount items) evs
      /\ (Rebalancer.submit_loop currency lend_period minimum_amount items s
          = Ok tt s' ->
          forall item, In item items ->
            ((minimum_amount < snd item)%Q -> submitted currency lend_period item evs)
            /\ (~ (minimum_amount < snd item)%Q -> skipped currency item evs))
      /\ ((forall item, In item items -> ~ (minimum_amount < snd item)%Q) ->
          Rebalancer.submit_loop currency lend_period minimum_amount items s
          = Ok tt s').
Proof.
  induction items as [| item items IH]; intros s s' Hf.
  - simpl in Hf. injection Hf as <-. exists []. split; [now rewrite app_nil_r |].
    split; [constructor |]. split; [intros _ item [] | reflexivity].
  - cbn [Rebalancer.submit_loop] in *.
    apply bind_final in Hf. destruct Hf as [(e & He) | ([] & s1 & H1 & Hf)].
    + assert (Hf : final (Rebalancer.submit currency lend_period minimum_amount
                            item s) = Some s') by now rewrite He.
      destruct (submit_spec _ _ _ _ _ _ Hf) as (evs & Ht & Hfa & _ & Hskip).
      exists evs. split; [exact Ht |]. split.
      * eapply Forall_impl; [| exact Hfa]. intros ev.
        apply bucket_event_incl. intros x [<- | []]. now left.
      * unfold bind. rewrite He. split; [discriminate |].
        intros Hall. rewrite Hskip in He by (apply Hall; now left). discriminate.
    + assert (Hf1 : final (Rebalancer.submit currency lend_period minimum_amount
                             item s) = Some s1) by now rewrite H1.
      destruct (submit_spec _ _ _ _ _ _ Hf1) as (evs1 & Ht1 & Hfa1 & Hok1 & _).
      destruct (IH _ _ Hf) as (evs & Ht & Hfa & Hok & Hskip).
      exists (evs1 ++ evs). split; [rewrite Ht, Ht1; now rewrite app_assoc |].
      split.
      * apply Forall_app. split.
        { eapply Forall_impl; [| exact Hfa1]. intros ev.
          apply bucket_event_incl. intros x [<- | []]. now left. }
        eapply Forall_impl; [| exact Hfa]. intros ev.
        apply bucket_event_incl. intros x Hx. now right.
      * unfold bind. rewrite H1. split.
        { intros Hrun item' [<- | Hin].
          - destruct (Hok1 H1) as [Hs Hk]. split.
            + intros Hlt. apply submitted_app. left. now apply Hs.
            + intros Hn. apply in_or_app. left. now apply Hk.
          - destruct (Hok Hrun item' Hin) as [Hs Hk]. split.
            + intros Hlt. apply submitted_app. right. now apply Hs.
            + intros Hn. apply in_or_app. right. now apply Hk. }
        intros Hall. apply Hskip. intros item' Hin. apply Hall. now right.
Qed.

Lemma bucket_event_submitted currency lend_period minimum_amount items item evs :
  Forall (bucket_event currency lend_period minimum_amount items) evs ->
  submitted currency lend_period item evs ->
  (minimum_amount < snd item)%Q.
Proof.
  intros Hfa (n & Hin). rewrite Forall_forall in Hfa.
  destruct (Hfa _ Hin)
    as [H | [(o & H) | [(item' & n' & _ & Hlt & H) | (item' & _ & _ & H)]]];
    try discriminate.
  injection H as Ha _ _. now rewrite Ha.
Qed.

Lemma bucket_event_skipped currency lend_period minimum_amount items item evs :
  Forall (bucket_event currency lend_period minimum_amount items) evs ->
  skipped currency item evs ->
  ~ (minimum_amount < snd item)%Q.
Proof.
  intros Hfa Hin. rewrite Forall_forall in Hfa.
  destruct (Hfa _ Hin)
    as [H | [(o & H) | [(item' & n' & _ & _ & H) | (item' & _ & Hle & H)]]];
    try discriminate.
  injection H as _ Ha. now rewrite Ha.
Qed.

Lemma submit_loop_all_skipped currency lend_period minimum_amount items :
  (forall item, In item items -> ~ (minimum_amount < snd item)%Q) ->
  forall s,
    Rebalancer.submit_loop currency lend_period minimum_amount items s
    = Ok tt (mk_State (clock s) (lags s) (wire s)
                      (trace s ++ skip_reports currency items)
                      (nonce s) (request_timestamps s)).
Proof.
  induction items as [| [rate amount] items IH]; intros Hall s.
  - simpl. rewrite app_nil_r. now destruct s.
  - cbn [Rebalancer.submit_loop]. unfold bind.
    rewrite submit_skip by (apply (Hall (rate, amount)); now left).
    rewrite IH by (intros item Hin; apply Hall; now right).
    cbn [emit clock lags wire trace nonce request_timestamps skip_reports map fst snd].
    now rewrite <- app_assoc.
Qed.

(** C8.  In a rebalancing pass whose cancellations have produced the
    buckets [buckets], an attempt to submit a new offer is only ever made
    for an amount strictly above the minimum amount and a skip is only ever
    reported for an amount not above it; when the pass returns, every bucket
    strictly above the minimum amount has been submitted and every other
    bucket has been reported as skipped, and none both; and a pass all of
    whose buckets are at or below the minimum amount returns without an
    exception, having done nothing but report the skips. *)
Theorem skipped_or_submitted get_new_rate first rest lend_period minimum_amount
        s buckets s1 s' :
  Rebalancer.cancel_loop get_new_rate (first :: rest) [] s = Ok buckets s1 ->
  final (Rebalancer.adjust_offers get_new_rate (first :: rest) lend_period
                                  minimum_amount s) = Some s' ->
  exists evs,
    trace s' = trace s1 ++ evs
    /\ (forall item, submitted (currency first) lend_period item evs ->
                     (minimum_amount < snd item)%Q)
    /\ (forall item, skipped (currency first) item evs ->
                     ~ (minimum_amount < snd item)%Q)
    /\ (Rebalancer.adjust_offers get_new_rate (first :: rest) lend_period
                                 minimum_amount s = Ok tt s' ->
        forall item, In item buckets ->
          (submitted (currency first) lend_period item evs
           <-> (minimum_amount < snd item)%Q)
          /\ (skipped (currency first) item evs
              <-> ~ (minimum_amount < snd item)%Q))
    /\ ((forall item, In item buckets -> ~ (minimum_amount < snd item)%Q) ->
        Rebalancer.adjust_offers get_new_rate (first :: rest) lend_period
                                 minimum_amount s = Ok tt s'
        /\ evs = skip_reports (currency first) buckets).
Proof.
  intros Hc. unfold Rebalancer.adjust_offers. unfold bind. rewrite Hc.
  intros Hf.
  destruct (submit_loop_spec _ _ _ _ _ _ Hf) as (evs & Ht & Hfa & Hok & Hskip).
  exists evs. split; [exact Ht |].
  split; [intros item; now apply bucket_event_submitted with (1 := Hfa) |].
  split; [intros item; now apply bucket_event_skipped with (1 := Hfa) |].
  split.
  - intros Hrun item Hin. destruct (Hok Hrun item Hin) as [Hs Hk]. split; split.
    + now apply bucket_event_submitted with (1 := Hfa).
    + exact Hs.
    + now apply bucket_event_skipped with (1 := Hfa).
    + exact Hk.
  - intros Hall. split; [now apply Hskip |].
    rewrite (submit_loop_all_skipped _ _ _ _ Hall) in Hf.
    simpl in Hf. injection Hf as <-. simpl in Ht.
    now apply app_inv_head in Ht.
Qed.

Lemma skipped_or_submitted_witness :
  exists evs,
    trace Examples.mixed_final = trace Examples.mixed_cancelled ++ evs
    /\ (forall item, submitted "USD" 2 item evs -> (50 < snd item)%Q)
    /\ (forall item, skipped "USD" item evs -> ~ (50 < snd item)%Q)
    /\ (cascadebot.adjust_offers Examples.usual_config Examples.mixed_offers 2 50
          Examples.mixed_state = Ok tt Examples.mixed_final ->
        forall item, In item Examples.mixed_buckets ->
          (submitted "USD" 2 item evs <-> (50 < snd item)%Q)
          /\ (skipped "USD" item evs <-> ~ (50 < snd item)%Q))
    /\ ((forall item, In item Examples.mixed_buckets -> ~ (50 < snd item)%Q) ->
        cascadebot.adjust_offers Examples.usual_config Examples.mixed_offers 2 50
          Examples.mixed_state = Ok tt Examples.mixed_final
        /\ evs = skip_reports "USD" Examples.mixed_buckets).
Proof.
  apply (skipped_or_submitted
           (cascadebot.get_new_rate Examples.usual_config)
           (mk_Offer 21 "USD" 5 0 100) [mk_Offer 22 "USD" 4 0 60] 2 50
           Examples.mixed_state Examples.mixed_buckets Examples.mixed_cancelled
           Examples.mixed_final).
  - vm_compute. reflexivity.
  - vm_compute. reflexivity.
Defined.

Lemma bind_ret_tt (m : M unit) s : bind m (fun _ => ret tt) s = m s.
Proof. unfold bind, ret. now destruct (m s) as [[] s' | |]. Qed.

(** C1, amended.  When the two offers of a pass get numerically equal new
    rates, their cancelled amounts meet in one bucket, keyed by the first of
    the two rates.  If the sum is strictly above the minimum amount, the
    rest of the pass is one call of [new_offer] for the currency of the
    first offer, the sum and that rate, and every HTTP attempt it makes is
    that one request; otherwise no new offer is submitted and the pass ends
    with the report that the bucket is skipped. *)
Theorem two_offers_one_bucket get_new_rate o1 o2 lend_period minimum_amount
        s0 s1 s2 s3 s4 r1 r2 c1 c2 :
  get_new_rate o1 s0 = Ok (Some r1) s1 ->
  BitfinexAPI.cancel_offer o1 s1 = Ok c1 s2 ->
  get_new_rate o2 s2 = Ok (Some r2) s3 ->
  BitfinexAPI.cancel_offer o2 s3 = Ok c2 s4 ->
  (r1 == r2)%Q ->
  exists total,
    (total == amount c1 + amount c2)%Q
    /\ Rebalancer.cancel_loop get_new_rate [o1; o2] [] s0 = Ok [(r1, total)] s4
    /\ ((minimum_amount < amount c1 + amount c2)%Q ->
        Rebalancer.adjust_offers get_new_rate [o1; o2] lend_period minimum_amount s0
        = (o <- BitfinexAPI.new_offer (currency o1) total r1 lend_period ;;
           print (MsgOffer o)) s4
        /\ forall s',
             final (Rebalancer.adjust_offers get_new_rate [o1; o2] lend_period
                                             minimum_amount s0) = Some s' ->
             exists evs,
               trace s' = trace s4 ++ evs
               /\ In (EvHttp POST "/v1/offer/new"
                        (NewOfferParams (currency o1) total r1 lend_period)
                        (nonce s4)) evs
               /\ forall method path params n,
                    In (EvHttp method path params n) evs ->
                    EvHttp method path params n
                    = EvHttp POST "/v1/offer/new"
                        (NewOfferParams (currency o1) total r1 lend_period)
                        (nonce s4))
    /\ (~ (minimum_amount < amount c1 + amount c2)%Q ->
        Rebalancer.adjust_offers get_new_rate [o1; o2] lend_period minimum_amount s0
        = Ok tt (emit (EvPrint (MsgSkip r1 (currency o1) total)) s4)).
Proof.
  intros H1 H2 H3 H4 Hr.
  exists (0 + amount c1 + amount c2)%Q.
  assert (Hsum : (0 + amount c1 + amount c2 == amount c1 + amount c2)%Q) by ring.
  assert (Hloop : Rebalancer.cancel_loop get_new_rate [o1; o2] [] s0
                  = Ok [(r1, (0 + amount c1 + amount c2)%Q)] s4).
  { cbn [Rebalancer.cancel_loop]. unfold bind. rewrite H1, H2, H3, H4.
    cbn [defaultdict_iadd]. apply Qeqb_eq in Hr. now rewrite Hr. }
  assert (Hpass : Rebalancer.adjust_offers get_new_rate [o1; o2] lend_period
                    minimum_amount s0
                  = Rebalancer.submit (currency o1) lend_period minimum_amount
                      (r1, (0 + amount c1 + amount c2)%Q) s4).
  { unfold Rebalancer.adjust_offers. unfold bind at 1. rewrite Hloop.
    cbn [Rebalancer.submit_loop]. apply bind_ret_tt. }
  split; [exact Hsum |]. split; [exact Hloop |]. split.
  - intros Hlt. rewrite <- Hsum in Hlt. rewrite Hpass.
    rewrite (submit_new _ _ _ _ _ _ Hlt). split; [reflexivity |].
    intros s' Hf. apply bind_final in Hf.
    assert (Hnew : exists s5 evs5,
               final (BitfinexAPI.new_offer (currency o1)
                        (0 + amount c1 + amount c2) r1 lend_period s4) = Some s5
               /\ trace s' = trace s5 ++ evs5
               /\ Forall (fun e => exists o, e = EvPrint (MsgOffer o)) evs5).
    { destruct Hf as [(e & He) | (o & s5 & Ho & Hp)].
      - exists s', []. rewrite He. split; [reflexivity |].
        split; [now rewrite app_nil_r | constructor].
      - exists s5, [EvPrint (MsgOffer o)]. rewrite Ho. split; [reflexivity |].
        unfold print in Hp. simpl in Hp. injection Hp as <-.
        split; [reflexivity |]. constructor; [now exists o | constructor]. }
    destruct Hnew as (s5 & evs5 & Hf5 & Ht5 & Hfa5).
    destruct (new_offer_spec _ _ _ _ _ _ Hf5) as (evs & Ht & Hfa & Hin).
    exists (evs ++ evs5). split; [rewrite Ht5, Ht; now rewrite app_assoc |].
    split; [apply in_or_app; now left |].
    intros method path params n Hi. apply in_app_or in Hi.
    destruct Hi as [Hi | Hi].
    + rewrite Forall_forall in Hfa. destruct (Hfa _ Hi) as [Hg | He];
        [discriminate | exact He].
    + rewrite Forall_forall in Hfa5. destruct (Hfa5 _ Hi) as (o & Ho). discriminate.
  - intros Hn. rewrite Hpass. apply submit_skip. now rewrite Hsum.
Qed.

Lemma two_offers_one_bucket_witness :
  exists total,
    (total == 10 + 20)%Q
    /\ Rebalancer.cancel_loop (cascadebot.get_new_rate Examples.usual_config)
         [mk_Offer 11 "USD" 5 0 100; mk_Offer 12 "USD" 5 0 100] []
         Examples.twin_state
       = Ok [(3%Q, total)] Examples.twin_cancelled
    /\ ((25 < 10 + 20)%Q ->
        Rebalancer.adjust_offers (cascadebot.get_new_rate Examples.usual_config)
          [mk_Offer 11 "USD" 5 0 100; mk_Offer 12 "USD" 5 0 100] 2 25
          Examples.twin_state
        = (o <- BitfinexAPI.new_offer "USD" total 3 2 ;; print (MsgOffer o))
            Examples.twin_cancelled
        /\ forall s',
             final (Rebalancer.adjust_offers
                      (cascadebot.get_new_rate Examples.usual_config)
                      [mk_Offer 11 "USD" 5 0 100; mk_Offer 12 "USD" 5 0 100] 2 25
                      Examples.twin_state) = Some s' ->
             exists evs,
               trace s' = trace Examples.twin_cancelled ++ evs
               /\ In (EvHttp POST "/v1/offer/new" (NewOfferParams "USD" total 3 2)
                        (nonce Examples.twin_cancelled)) evs
               /\ forall method path params n,
                    In (EvHttp method path params n) evs ->
                    EvHttp method path params n
                    = EvHttp POST "/v1/offer/new" (NewOfferParams "USD" total 3 2)
                        (nonce Examples.twin_cancelled))
    /\ (~ (25 < 10 + 20)%Q ->
        Rebalancer.adjust_offers (cascadebot.get_new_rate Examples.usual_config)
          [mk_Offer 11 "USD" 5 0 100; mk_Offer 12 "USD" 5 0 100] 2 25
          Examples.twin_state
        = Ok tt (emit (EvPrint (MsgSkip 3 "USD" total)) Examples.twin_cancelled)).
Proof.
  eapply (two_offers_one_bucket
            (cascadebot.get_new_rate Examples.usual_config)
            (mk_Offer 11 "USD" 5 0 100) (mk_Offer 12 "USD" 5 0 100) 2 25
            Examples.twin_state _ _ _ Examples.twin_cancelled 3 3
            (mk_Offer 11 "USD" 5.0 0 10) (mk_Offer 12 "USD" 5.0 0 20)).
  - vm_compute. reflexivity.
  - vm_compute. reflexivity.
  - vm_compute. reflexivity.
  - vm_compute. reflexivity.
  - reflexivity.
Defined.

(** C1 as stated fails when the sum does not exceed the minimum amount: the
    two offers get the new rate 3, the exchange reports 10 and 20 as the
    cancelled amounts, the minimum amount is 50, and the pass ends without
    any attempt to submit a new offer. *)
Lemma small_sum_submits_nothing :
  ~ submits_the_sum (cascadebot.get_new_rate Examples.usual_config).
Proof.
  intros H.
  edestruct (H (mk_Offer 11 "USD" 5 0 100) (mk_Offer 12 "USD" 5 0 100) 2 50%Q
               Examples.twin_state) as (total & n & _ & Hin).
  - reflexivity.
  - vm_compute. reflexivity.
  - vm_compute. reflexivity.
  - vm_compute. reflexivity.
  - vm_compute. reflexivity.
  - reflexivity.
  - vm_compute. reflexivity.
  - vm_compute in Hin.
    repeat (destruct Hin as [Hin | Hin]; [discriminate |]). exact Hin.
Qed.

(** ** [get_offers] *)

Lemma get_offers_loop_spec l :
  forall usd btc,
    BitfinexAPI.get_offers_loop l usd btc
    = match partitioned lend_not_frr l with
      | inl e => inl e
      | inr (u, b) => inr (usd ++ u, btc ++ b)
      end.
Proof.
  unfold partitioned.
  induction l as [| d l IH]; intros usd btc.
  - simpl. now rewrite !app_nil_r.
  - cbn [BitfinexAPI.get_offers_loop filter]. fold (lend_not_frr d).
    destruct (lend_not_frr d); [| apply IH].
    cbn [parse_offers]. destruct (Offer_init d) as [e | o]; [reflexivity |].
    destruct (String.eqb (currency o) "USD") eqn:Eu;
      [| destruct (String.eqb (currency o) "BTC") eqn:Eb];
      rewrite IH; destruct (parse_offers (filter lend_not_frr l)) as [e | os];
      try reflexivity; cbn [filter]; rewrite ?Eu, ?Eb.
    + apply String.eqb_eq in Eu. rewrite Eu. simpl.
      now rewrite <- app_assoc.
    + now rewrite <- app_assoc.
    + reflexivity.
Qed.

(** C7, amended.  [get_offers] returns, in the order of the response and as
    offers, exactly the entries whose direction is "lend" and whose rate is
    not written "0.0", those in USD in the first list and those in BTC in
    the second; entries in other currencies are in neither; if one of the
    selected entries is not a well-formed offer the call raises. *)
Theorem get_offers_partition s s1 response :
  BitfinexAPI._request "/v1/offers" NoParams s = Ok (JOffers response) s1 ->
  BitfinexAPI.get_offers s = lift (partitioned lend_not_frr response) s1.
Proof.
  intros H. unfold BitfinexAPI.get_offers, bind. rewrite H.
  rewrite get_offers_loop_spec.
  destruct (partitioned lend_not_frr response) as [e | [u b]]; reflexivity.
Qed.

Lemma get_offers_partition_witness :
  BitfinexAPI.get_offers Examples.offers_state
  = lift (partitioned lend_not_frr Examples.offers_response) Examples.offers_fetched.
Proof.
  apply (get_offers_partition Examples.offers_state Examples.offers_fetched
           Examples.offers_response).
  vm_compute. reflexivity.
Defined.

Example get_offers_example :
  BitfinexAPI.get_offers Examples.offers_state
  = Ok ([mk_Offer 41 "USD" 5.0 (1444274193 * second) 100.0;
         mk_Offer 46 "USD" 4.0 (1444274198 * second) 60.0],
        [mk_Offer 45 "BTC" 2.5 (1444274197 * second) 0.75])
       Examples.offers_fetched.
Proof. vm_compute. reflexivity. Qed.

(** C7 as stated fails for a rate of zero that is not written "0.0": the
    specification leaves the entry out, [get_offers] returns it. *)
Lemma zero_rate_entry_is_returned :
  listOffers Examples.zero_rate_response = inr ([], [])
  /\ BitfinexAPI.get_offers_loop Examples.zero_rate_response [] []
     = inr ([mk_Offer 31 "USD" 0.00 (1444274193 * second) 100.0], [])
  /\ BitfinexAPI.get_offers_loop Examples.zero_rate_response [] []
     <> listOffers Examples.zero_rate_response.
Proof.
  split; [vm_compute; reflexivity |]. split; [vm_compute; reflexivity |].
  vm_compute. discriminate.
Qed.

(** ** [get_available_balances] *)

Lemma last_cons {A} (a : A) (l : list A) (d : A) : last (a :: l) d = last l a.
Proof.
  revert a d. induction l as [| b l IH]; intros a d; [reflexivity |].
  change (last (a :: b :: l) d) with (last (b :: l) d). rewrite !IH. reflexivity.
Qed.

Lemma cascadebot_balances_loop_spec l :
  forall usd btc usd' btc',
    cascadebot.balances_loop l usd btc = inr (usd', btc') ->
    inr usd' = last (map (fun b => Py.Decimal (b_available b)) (deposits "usd" l))
                    (inr usd)
    /\ inr btc' = last (map (fun b => Py.Decimal (b_available b)) (deposits "btc" l))
                       (inr btc).
Proof.
  unfold deposits.
  induction l as [| b l IH]; intros usd btc usd' btc' H.
  - simpl in H |- *. injection H as -> ->. now split.
  - cbn [cascadebot.balances_loop filter] in H |- *.
    destruct (String.eqb (b_type b) "deposit"); cbn [andb]; [| now apply IH].
    destruct (String.eqb (b_currency b) "usd") eqn:Eu.
    + apply String.eqb_eq in Eu. rewrite Eu. cbn [String.eqb Ascii.eqb Bool.eqb].
      destruct (Py.Decimal (b_available b)) as [e | q] eqn:Ed; [discriminate |].
      cbn [map]. rewrite last_cons, Ed. now apply IH.
    + destruct (String.eqb (b_currency b) "btc") eqn:Eb; [| now apply IH].
      destruct (Py.Decimal (b_available b)) as [e | q] eqn:Ed; [discriminate |].
      cbn [map]. rewrite last_cons, Ed. now apply IH.
Qed.

Lemma cascadebot_balances_loop_total l :
  Forall well_formed l ->
  forall usd btc, exists usd' btc',
    cascadebot.balances_loop l usd btc = inr (usd', btc').
Proof.
  induction 1 as [| b l [(q & Hq) _] _ IH]; intros usd btc.
  - now exists usd, btc.
  - cbn [cascadebot.balances_loop]. rewrite Hq.
    destruct (String.eqb (b_type b) "deposit"); [| apply IH].
    destruct (String.eqb (b_currency b) "usd"); [apply IH |].
    destruct (String.eqb (b_currency b) "btc"); apply IH.
Qed.

Lemma BFClient_balances_loop_spec l :
  forall usd amt usd' amt',
    BFClient.balances_loop l usd amt = inr (usd', amt') ->
    inr usd' = last (map (fun b => Py.Decimal (b_available b)) (deposits "usd" l))
                    (inr usd)
    /\ inr amt' = last (map (fun b => Py.Decimal (b_amount b)) (deposits "usd" l))
                       (inr amt).
Proof.
  unfold deposits.
  induction l as [| b l IH]; intros usd amt usd' amt' H.
  - simpl in H |- *. injection H as -> ->. now split.
  - cbn [BFClient.balances_loop filter] in H |- *.
    destruct (String.eqb (b_type b) "deposit"); cbn [andb]; [| now apply IH].
    destruct (String.eqb (b_currency b) "usd"); [| now apply IH].
    destruct (Py.Decimal (b_available b)) as [e | q] eqn:Ed; [discriminate |].
    destruct (Py.Decimal (b_amount b)) as [e | a] eqn:Ea; [discriminate |].
    cbn [map]. rewrite !last_cons, Ed, Ea. now apply IH.
Qed.

Lemma BFClient_balances_loop_total l :
  Forall well_formed l ->
  forall usd amt, exists usd' amt',
    BFClient.balances_loop l usd amt = inr (usd', amt').
Proof.
  induction 1 as [| b l [(q & Hq) (a & Ha)] _ IH]; intros usd amt.
  - now exists usd, amt.
  - cbn [BFClient.balances_loop]. rewrite Hq, Ha.
    destruct (String.eqb (b_type b) "deposit"); [| apply IH].
    destruct (String.eqb (b_currency b) "usd"); apply IH.
Qed.

(** C9, amended.  For a balances response all of whose entries are well
    formed, [get_available_balances] of [cascadebot.py] returns the available
    balance of the deposit wallet in "usd" and that of the deposit wallet in
    "btc" (of the last such entry, zero when there is none), and
    [get_available_balances] of [BFClient.py] returns the available balance
    and the total amount of the deposit wallet in "usd", and nothing about
    BTC. *)
Theorem get_available_balances_returns s s1 response :
  BitfinexAPI._request "/v1/balances" NoParams s = Ok (JBalances response) s1 ->
  Forall well_formed response ->
  (exists usd btc,
     cascadebot.get_available_balances s = Ok (usd, btc) s1
     /\ inr usd = deposit_available "usd" response
     /\ inr btc = deposit_available "btc" response)
  /\ (exists usd amt,
        BFClient.get_available_balances s = Ok (usd, amt) s1
        /\ inr usd = deposit_available "usd" response
        /\ inr amt = deposit_amount "usd" response).
Proof.
  intros Hreq Hwf. split.
  - destruct (cascadebot_balances_loop_total _ Hwf 0%Q 0%Q) as (usd & btc & H).
    exists usd, btc. split.
    + unfold cascadebot.get_available_balances, bind. rewrite Hreq, H. reflexivity.
    + now apply cascadebot_balances_loop_spec.
  - destruct (BFClient_balances_loop_total _ Hwf 0%Q 0%Q) as (usd & amt & H).
    exists usd, amt. split.
    + unfold BFClient.get_available_balances, bind. rewrite Hreq, H. reflexivity.
    + now apply BFClient_balances_loop_spec.
Qed.

Lemma get_available_balances_returns_witness :
  (exists usd btc,
     cascadebot.get_available_balances Examples.balances_state
     = Ok (usd, btc) Examples.balances_fetched
     /\ inr usd = deposit_available "usd" Examples.balances_response
     /\ inr btc = deposit_available "btc" Examples.balances_response)
  /\ (exists usd amt,
        BFClient.get_available_balances Examples.balances_state
        = Ok (usd, amt) Examples.balances_fetched
        /\ inr usd = deposit_available "usd" Examples.balances_response
        /\ inr amt = deposit_amount "usd" Examples.balances_response).
Proof.
  apply (get_available_balances_returns Examples.balances_state
           Examples.balances_fetched Examples.balances_response).
  - vm_compute. reflexivity.
  - repeat constructor; eexists; vm_compute; reflexivity.
Defined.

(** C9 as stated fails for [BFClient.py]: with a deposit wallet of 2.0
    available BTC, the second number it returns is not that balance but the
    total amount of the USD deposit wallet, zero here; [cascadebot.py]
    returns the 2.0. *)
Lemma BFClient_returns_no_btc_balance :
  deposit_available "btc" Examples.btc_balances = inr 2.0%Q
  /\ (exists s', cascadebot.get_available_balances Examples.btc_balances_state
                 = Ok (0%Q, 2.0%Q) s')
  /\ (exists s', BFClient.get_available_balances Examples.btc_balances_state
                 = Ok (0%Q, 0%Q) s')
  /\ ~ (0 == 2.0)%Q.
Proof.
  split; [vm_compute; reflexivity |].
  split; [eexists; vm_compute; reflexivity |].
  split; [eexists; vm_compute; reflexivity |].
  discriminate.
Qed.


(** * Further properties *)

(** ** [get_new_rate] *)

Lemma get_new_rate_floor_none config self s min_rate d m interval :
  cascadebot.decay_parameters config (currency self)
    = inr (min_rate, d, m, interval) ->
  (rate self <= min_rate)%Q ->
  cascadebot.get_new_rate config self s = Ok None s.
Proof.
  intros Hp Hle. unfold cascadebot.get_new_rate, bind. rewrite Hp.
  cbn [lift ret]. apply Qleb_le in Hle. now rewrite Hle.
Qed.

(** X1.  An offer at or below the minimum rate of its currency gets no new
    rate, however old it is: [get_new_rate] of [cascadebot.py] returns
    [None] without reading the clock. *)
Theorem get_new_rate_at_floor config self s min_rate d m interval :
  cascadebot.decay_parameters config (currency self)
    = inr (min_rate, d, m, interval) ->
  (rate self <= min_rate)%Q ->
  cascadebot.get_new_rate config self s = Ok None s.
Proof. apply get_new_rate_floor_none. Qed.

Lemma get_new_rate_at_floor_witness :
  cascadebot.get_new_rate Examples.usual_config MoreExamples.floor_offer
                          (Examples.after_hours 2)
  = Ok None (Examples.after_hours 2).
Proof.
  apply (get_new_rate_at_floor Examples.usual_config MoreExamples.floor_offer
           (Examples.after_hours 2) 0 1 1 (Py.Timedelta Examples.hour)).
  - reflexivity.
  - discriminate.
Defined.

(** X2.  An offer above the minimum rate for which less than one whole
    interval has elapsed, be it because it is young or because its
    timestamp lies in the future, gets no new rate. *)
Theorem get_new_rate_too_early config self s e rest min_rate d m interval :
  cascadebot.decay_parameters config (currency self)
    = inr (min_rate, d, m, Py.Timedelta interval) ->
  (min_rate < rate self)%Q ->
  interval <> 0 ->
  lags s = e :: rest ->
  (clock s + e - submitted_at self) / interval < 1 ->
  cascadebot.get_new_rate config self s = Ok None (after_reading s).
Proof.
  intros Hp Hr Hi Hl Hq.
  unfold cascadebot.get_new_rate, bind, after_reading. rewrite Hp. cbn [lift ret].
  apply Qleb_gt in Hr. rewrite Hr.
  unfold utcnow. rewrite Hl. cbn [Py.timedelta_floordiv].
  apply Z.eqb_neq in Hi. rewrite Hi. cbn [lift ret Py.lt].
  apply Z.ltb_lt in Hq. now rewrite Hq.
Qed.

Lemma get_new_rate_too_early_witness :
  cascadebot.get_new_rate Examples.usual_config MoreExamples.future_offer
                          (Examples.after_hours 2)
  = Ok None (after_reading (Examples.after_hours 2)).
Proof.
  apply (get_new_rate_too_early Examples.usual_config MoreExamples.future_offer
           (Examples.after_hours 2) 0 [] 0 1 1 Examples.hour).
  - reflexivity.
  - reflexivity.
  - discriminate.
  - reflexivity.
  - reflexivity.
Defined.









(** ** Requests *)







(** X7.  A request that ends, by returning or by raising, has used up
    exactly one nonce and has made at least one attempt, and all its
    attempts are the same: the method, the path, the parameters and the
    nonce it started with. *)
Theorem send_attempts_identical method request_type parameters s s' :
  final (BitfinexAPI.send method request_type parameters s) = Some s' ->
  nonce s' = nonce s + 1
  /\ exists evs,
       trace s' = trace s ++ evs
       /\ In (EvHttp method request_type parameters (nonce s)) evs
       /\ forall method' path' params' n',
            In (EvHttp method' path' params' n') evs ->
            method' = method /\ path' = request_type
            /\ params' = parameters /\ n' = nonce s.
Proof.
  intros Hf. destruct (send_spec _ _ _ _ _ Hf) as (Hn & (evs & Ht & Hfa & Hin) & _).
  split; [exact Hn |]. exists evs. split; [exact Ht |]. split; [exact Hin |].
  intros method' path' params' n' Hi. rewrite Forall_forall in Hfa.
  destruct (Hfa _ Hi) as [Hg | He]; [discriminate |].
  injection He as -> -> -> ->. auto.
Qed.

Lemma send_attempts_identical_witness :
  nonce (mk_State (1700000000 * second + 2) [1; 1]
           [Response 500 JOther; Response 500 JOther; Response 200 (JOffers [])]
           [EvHttp POST "/v1/offers" NoParams 1700000000;
            EvPrint (MsgResponseText 500)]
           1700000001 [1700000000 * second + 2])
  = nonce Examples.outage_state + 1
  /\ exists evs,
       trace (mk_State (1700000000 * second + 2) [1; 1]
                [Response 500 JOther; Response 500 JOther;
                 Response 200 (JOffers [])]
                [EvHttp POST "/v1/offers" NoParams 1700000000;
                 EvPrint (MsgResponseText 500)]
                1700000001 [1700000000 * second + 2])
       = trace Examples.outage_state ++ evs
       /\ In (EvHttp POST "/v1/offers" NoParams (nonce Examples.outage_state)) evs
       /\ forall method' path' params' n',
            In (EvHttp method' path' params' n') evs ->
            method' = POST /\ path' = "/v1/offers"%string
            /\ params' = NoParams /\ n' = nonce Examples.outage_state.
Proof.
  apply (send_attempts_identical POST "/v1/offers" NoParams Examples.outage_state).
  vm_compute. reflexivity.
Defined.

(** ** The rate limiter, once more *)

(** X8.  While fewer than 60 timestamps of the window are live at the
    first reading of the clock, the rate limiter neither prints nor sleeps:
    it drops the expired timestamps, reads the clock once more and records
    that time. *)
Theorem rate_limiter_no_wait s e1 e2 rest :
  lags s = e1 :: e2 :: rest ->
  (List.length (BitfinexAPI.evict (clock s + e1 - BitfinexAPI.rate_limit_interval)
                                  (request_timestamps s))
   < BitfinexAPI.max_requests_per_interval)%nat ->
  BitfinexAPI._rate_limiter s
  = Ok tt (mk_State (clock s + e1 + e2) rest (wire s) (trace s) (nonce s)
             (BitfinexAPI.evict (clock s + e1 - BitfinexAPI.rate_limit_interval)
                                (request_timestamps s)
              ++ [clock s + e1 + e2])).
Proof.
  intros Hl Hlen.
  unfold BitfinexAPI._rate_limiter. unfold bind at 1. rewrite Hl.
  cbn [List.length BitfinexAPI.rate_limiter_loop].
  unfold bind at 1, utcnow. rewrite Hl. fields.
  destruct (Nat.leb_spec BitfinexAPI.max_requests_per_interval
              (List.length
                 (BitfinexAPI.evict (clock s + e1 - BitfinexAPI.rate_limit_interval)
                                    (request_timestamps s))))
    as [Hfull | _]; [lia |].
  unfold bind, utcnow. fields. reflexivity.
Qed.

Lemma rate_limiter_no_wait_witness :
  BitfinexAPI._rate_limiter MoreExamples.retry_state
  = Ok tt (mk_State (clock MoreExamples.retry_state + 1 + 1) []
             (wire MoreExamples.retry_state) (trace MoreExamples.retry_state)
             (nonce MoreExamples.retry_state)
             (BitfinexAPI.evict
                (clock MoreExamples.retry_state + 1 - BitfinexAPI.rate_limit_interval)
                (request_timestamps MoreExamples.retry_state)
              ++ [clock MoreExamples.retry_state + 1 + 1])).
Proof.
  apply (rate_limiter_no_wait MoreExamples.retry_state 1 1 []).
  - reflexivity.
  - vm_compute. lia.
Defined.

Lemma rate_limiter_loop_bounded fuel s :
  match BitfinexAPI.rate_limiter_loop fuel s with
  | Ok _ s' =>
      (List.length (request_timestamps s')
       < BitfinexAPI.max_requests_per_interval)%nat
      /\ exists dropped, request_timestamps s = dropped ++ request_timestamps s'
  | Raise _ _ => False
  | OutOfScript => True
  end.
Proof.
  revert s. induction fuel as [| fuel IH]; intros s; [exact I |].
  cbn [BitfinexAPI.rate_limiter_loop]. unfold bind at 1, utcnow.
  destruct (lags s) as [| e rest] eqn:Hl; [exact I |].
  fields.
  destruct (evict_spec (clock s + e - BitfinexAPI.rate_limit_interval)
              (request_timestamps s)) as (dropped & E & _).
  set (kept := BitfinexAPI.evict (clock s + e - BitfinexAPI.rate_limit_interval)
                 (request_timestamps s)) in *.
  destruct (Nat.leb_spec BitfinexAPI.max_requests_per_interval (List.length kept))
    as [Hfull | Hroom].
  - unfold bind, print, sleep.
    match goal with |- match BitfinexAPI.rate_limiter_loop fuel ?s3 with _ => _ end =>
      specialize (IH s3); destruct (BitfinexAPI.rate_limiter_loop fuel s3)
        as [[] s' | |]; [| exact IH | exact I] end.
    fields. destruct IH as (Hlen & dropped' & E').
    split; [exact Hlen |]. exists (dropped ++ dropped').
    rewrite <- app_assoc, <- E'. exact E.
  - fields. split; [exact Hroom |]. now exists dropped.
Qed.

(** X9.  The rate limiter never raises, and when it returns the window
    holds at most 60 timestamps: those of the old window it has not dropped,
    in their order, and then its own, the time of its last reading of the
    clock.  This holds whatever the clock does. *)
Theorem rate_limiter_bounded s :
  (forall e s', BitfinexAPI._rate_limiter s <> Raise e s')
  /\ (forall s',
        BitfinexAPI._rate_limiter s = Ok tt s' ->
        (List.length (request_timestamps s')
         <= BitfinexAPI.max_requests_per_interval)%nat
        /\ exists dropped kept,
             request_timestamps s = dropped ++ kept
             /\ request_timestamps s' = kept ++ [clock s']).
Proof.
  unfold BitfinexAPI._rate_limiter. unfold bind at 1 3.
  pose proof (rate_limiter_loop_bounded (List.length (lags s)) s) as H.
  destruct (BitfinexAPI.rate_limiter_loop (List.length (lags s)) s)
    as [[] s1 | |]; [| contradiction | split; intros; discriminate].
  destruct H as (Hlen & dropped & E).
  unfold bind, utcnow. destruct (lags s1) as [| e rest];
    [split; intros; discriminate |].
  split; [intros; discriminate |].
  intros s' H. injection H as <-. fields. split.
  - rewrite length_app. cbn [List.length]. lia.
  - now exists dropped, (request_timestamps s1).
Qed.

Lemma rate_limiter_bounded_witness :
  (List.length (request_timestamps MoreExamples.retry_admitted)
   <= BitfinexAPI.max_requests_per_interval)%nat
  /\ exists dropped kept,
       request_timestamps MoreExamples.retry_state = dropped ++ kept
       /\ request_timestamps MoreExamples.retry_admitted
          = kept ++ [clock MoreExamples.retry_admitted].
Proof.
  apply (proj2 (rate_limiter_bounded MoreExamples.retry_state)
               MoreExamples.retry_admitted).
  vm_compute. reflexivity.
Defined.

(** ** Rebalancing, once more *)

(** X10.  A pass over offers that are all at or below the minimum rate of
    their currency does nothing at all: no clock reading, no request, no
    output. *)
Theorem adjust_offers_at_floor_untouched config offers lend_period minimum_amount s :
  Forall (fun o => exists min_rate d m v,
                     cascadebot.decay_parameters config (currency o)
                       = inr (min_rate, d, m, v)
                     /\ (rate o <= min_rate)%Q) offers ->
  cascadebot.adjust_offers config offers lend_period minimum_amount s = Ok tt s.
Proof.
  intros Hall. unfold cascadebot.adjust_offers, Rebalancer.adjust_offers.
  destruct offers as [| first rest]; [reflexivity |].
  assert (Hloop : forall l d,
            Forall (fun o => exists min_rate d m v,
                               cascadebot.decay_parameters config (currency o)
                                 = inr (min_rate, d, m, v)
                               /\ (rate o <= min_rate)%Q) l ->
            Rebalancer.cancel_loop (cascadebot.get_new_rate config) l d s = Ok d s).
  { induction l as [| o l IH]; intros d H; [reflexivity |].
    inversion H as [| ? ? (min_rate & dd & m & v & Hp & Hle) Hl]; subst.
    cbn [Rebalancer.cancel_loop]. unfold bind.
    rewrite (get_new_rate_floor_none _ _ _ _ _ _ _ Hp Hle). now apply IH. }
  unfold bind. rewrite (Hloop _ _ Hall). reflexivity.
Qed.

Lemma adjust_offers_at_floor_untouched_witness :
  cascadebot.adjust_offers Examples.usual_config
    [MoreExamples.floor_offer; MoreExamples.floor_offer] 2 50
    (Examples.after_hours 2)
  = Ok tt (Examples.after_hours 2).
Proof.
  apply (adjust_offers_at_floor_untouched Examples.usual_config
           [MoreExamples.floor_offer; MoreExamples.floor_offer] 2 50
           (Examples.after_hours 2)).
  repeat constructor;
    exists 0%Q, 1%Q, 1%Q, (Py.Timedelta Examples.hour);
    (split; [reflexivity | discriminate]).
Defined.

(** *** The buckets add up *)

Lemma cancel_loop_cancellations get_new_rate offers :
  forall d s,
    Rebalancer.cancel_loop get_new_rate offers d s
    = (pairs <- cancellations get_new_rate offers ;; ret (aggregate d pairs)) s.
Proof.
  induction offers as [| o offers IH]; intros d s; [reflexivity |].
  cbn [Rebalancer.cancel_loop cancellations]. unfold bind in *.
  destruct (get_new_rate o s) as [[r |] s1 | e s1 |]; try reflexivity.
  - destruct (BitfinexAPI.cancel_offer o s1) as [c s2 | e s2 |]; try reflexivity.
    rewrite IH.
    destruct (cancellations get_new_rate offers s2) as [pairs s3 | e s3 |];
      reflexivity.
  - apply IH.
Qed.

Lemma Qeqb_neq a b : Py.Qeqb a b = false <-> ~ (a == b)%Q.
Proof.
  rewrite <- Qeqb_eq. destruct (Py.Qeqb a b); split; congruence.
Qed.

Lemma total_cons p l : total (p :: l) = (snd p + total l)%Q.
Proof. reflexivity. Qed.

Lemma amount_at_cons r p l :
  amount_at r (p :: l)
  = if Py.Qeqb (fst p) r then (snd p + amount_at r l)%Q else amount_at r l.
Proof. reflexivity. Qed.

Lemma total_iadd d key amount :
  (total (defaultdict_iadd d key amount) == total d + amount)%Q.
Proof.
  induction d as [| [k v] d IH]; cbn [defaultdict_iadd].
  - rewrite total_cons. cbn [snd total fold_right]. ring.
  - destruct (Py.Qeqb k key); rewrite !total_cons; cbn [snd].
    + ring.
    + rewrite IH. ring.
Qed.

Lemma amount_at_iadd r d key amount :
  distinct_keys d ->
  (amount_at r (defaultdict_iadd d key amount)
   == amount_at r d + if Py.Qeqb key r then amount else 0)%Q.
Proof.
  induction d as [| [k v] d IH]; intros Hd; cbn [defaultdict_iadd].
  - rewrite amount_at_cons. cbn [fst snd amount_at fold_right].
    destruct (Py.Qeqb key r); ring.
  - inversion Hd as [| ? ? Hk Hd']; subst.
    destruct (Py.Qeqb k key) eqn:Ek; rewrite !amount_at_cons; cbn [fst snd].
    + apply Qeqb_eq in Ek.
      destruct (Py.Qeqb k r) eqn:Er.
      * apply Qeqb_eq in Er.
        assert (E : Py.Qeqb key r = true) by (apply Qeqb_eq; now rewrite <- Ek).
        rewrite E. ring.
      * assert (E : Py.Qeqb key r = false).
        { apply Qeqb_neq. apply Qeqb_neq in Er. now rewrite <- Ek. }
        rewrite E. ring.
    + destruct (Py.Qeqb k r); rewrite (IH Hd'); ring.
Qed.

Lemma iadd_keys d key amount p :
  In p (defaultdict_iadd d key amount) ->
  (exists q, In q d /\ fst p = fst q) \/ fst p = key.
Proof.
  induction d as [| [k v] d IH]; cbn [defaultdict_iadd].
  - intros [<- | []]. now right.
  - destruct (Py.Qeqb k key).
    + intros [<- | Hin].
      * left. exists (k, v). split; [now left | reflexivity].
      * left. exists p. split; [now right | reflexivity].
    + intros [<- | Hin].
      * left. exists (k, v). split; [now left | reflexivity].
      * destruct (IH Hin) as [(q & Hq & E) | E]; [| now right].
        left. exists q. split; [now right | exact E].
Qed.

Lemma distinct_keys_iadd d key amount :
  distinct_keys d -> distinct_keys (defaultdict_iadd d key amount).
Proof.
  induction d as [| [k v] d IH]; intros Hd; cbn [defaultdict_iadd].
  - constructor; constructor.
  - inversion Hd as [| ? ? Hk Hd']; subst.
    destruct (Py.Qeqb k key) eqn:Ek.
    + constructor; [| exact Hd']. exact Hk.
    + constructor; [| now apply IH].
      apply Forall_forall. intros p Hp. cbn [fst].
      destruct (iadd_keys _ _ _ _ Hp) as [(q & Hq & E) | E]; rewrite E.
      * rewrite Forall_forall in Hk. exact (Hk q Hq).
      * now apply Qeqb_neq.
Qed.

Lemma amount_at_absent r l :
  Forall (fun q => ~ (r == fst q)%Q) l -> (amount_at r l == 0)%Q.
Proof.
  induction 1 as [| [k v] l Hne _ IH]; [reflexivity |].
  rewrite amount_at_cons. cbn [fst snd] in *.
  assert (E : Py.Qeqb k r = false).
  { apply Qeqb_neq. intros H. apply Hne. now symmetry. }
  rewrite E. exact IH.
Qed.

Lemma amount_at_bucket d r a :
  distinct_keys d -> In (r, a) d -> (amount_at r d == a)%Q.
Proof.
  induction d as [| [k v] d IH]; intros Hd Hin; [destruct Hin |].
  inversion Hd as [| ? ? Hk Hd']; subst.
  rewrite amount_at_cons. cbn [fst snd].
  destruct Hin as [E | Hin].
  - injection E as -> ->.
    assert (Er : Py.Qeqb r r = true) by (apply Qeqb_eq; reflexivity).
    rewrite Er, (amount_at_absent r d Hk). ring.
  - rewrite Forall_forall in Hk. specialize (Hk _ Hin). cbn [fst] in Hk.
    assert (E : Py.Qeqb k r = false) by now apply Qeqb_neq.
    rewrite E. now apply IH.
Qed.

Lemma aggregate_spec pairs :
  forall d,
    distinct_keys d ->
    distinct_keys (aggregate d pairs)
    /\ (total (aggregate d pairs) == total d + total pairs)%Q
    /\ (forall r, (amount_at r (aggregate d pairs)
                   == amount_at r d + amount_at r pairs)%Q).
Proof.
  unfold aggregate.
  induction pairs as [| [k a] pairs IH]; intros d Hd.
  - cbn [fold_left]. split; [exact Hd |].
    split; [cbn [total fold_right]; ring | intros r; cbn [amount_at fold_right]; ring].
  - cbn [fold_left fst snd].
    destruct (IH _ (distinct_keys_iadd d k a Hd)) as (Hdist & Htot & Hat).
    split; [exact Hdist |]. split.
    + rewrite Htot, total_iadd, total_cons. cbn [snd]. ring.
    + intros r. rewrite Hat, (amount_at_iadd _ _ _ _ Hd), amount_at_cons.
      cbn [fst snd]. destruct (Py.Qeqb k r); ring.
Qed.

(** X11.  The buckets of a pass add up to what was cancelled.  When the
    first loop of [adjust_offers] returns, it has cancelled the offers that
    got a new rate, each once and in order; no two buckets have numerically
    equal rates; the amount of each bucket is the sum of the amounts the
    exchange reported for the cancelled offers whose new rate equals the
    rate of the bucket; every cancelled offer is in a bucket; and the
    buckets together hold exactly the sum of all cancelled amounts. *)
Theorem buckets_add_up get_new_rate offers s buckets s' :
  Rebalancer.cancel_loop get_new_rate offers [] s = Ok buckets s' ->
  exists pairs,
    cancellations get_new_rate offers s = Ok pairs s'
    /\ distinct_keys buckets
    /\ (forall r a, In (r, a) buckets -> (a == amount_at r pairs)%Q)
    /\ (forall p, In p pairs ->
                   exists r a, (r == fst p)%Q /\ In (r, a) buckets)
    /\ (total buckets == total pairs)%Q.
Proof.
  rewrite cancel_loop_cancellations. intros H.
  apply bind_Ok in H. destruct H as (pairs & s1 & Hc & Hr).
  injection Hr as <- <-. exists pairs. split; [exact Hc |].
  destruct (aggregate_spec pairs [] (FOP_nil _)) as (Hdist & Htot & Hat).
  split; [exact Hdist |]. split; [| split].
  - intros r a Hin. rewrite <- (amount_at_bucket _ _ _ Hdist Hin), Hat.
    cbn [amount_at fold_right]. ring.
  - assert (Hkeys : forall pairs d p,
              In p pairs ->
              exists r a, (r == fst p)%Q /\ In (r, a) (aggregate d pairs)).
    { clear. unfold aggregate.
      assert (Hkeep : forall pairs d r a,
                In (r, a) d -> exists a', In (r, a') (fold_left
                  (fun d p => defaultdict_iadd d (fst p) (snd p)) pairs d)).
      { induction pairs as [| [k v] pairs IH]; intros d r a Hin; [eauto |].
        cbn [fold_left fst snd].
        assert (Hone : exists a', In (r, a') (defaultdict_iadd d k v)).
        { clear IH. induction d as [| [k' v'] d IHd]; [destruct Hin |].
          cbn [defaultdict_iadd]. destruct (Py.Qeqb k' k).
          - destruct Hin as [E | Hin]; [injection E as -> ->; eexists; now left |].
            eexists; right; exact Hin.
          - destruct Hin as [E | Hin]; [injection E as -> ->; eexists; now left |].
            destruct (IHd Hin) as (a' & Ha'). eexists; right; exact Ha'. }
        destruct Hone as (a' & Ha'). exact (IH _ _ _ Ha'). }
      induction pairs as [| [k v] pairs IH]; intros d p Hin; [destruct Hin |].
      cbn [fold_left fst snd]. destruct Hin as [<- | Hin]; [| now apply IH].
      cbn [fst].
      assert (Hnew : exists r a, (r == k)%Q /\ In (r, a) (defaultdict_iadd d k v)).
      { clear. induction d as [| [k' v'] d IHd]; cbn [defaultdict_iadd].
        - exists k, (0 + v)%Q. split; [reflexivity | now left].
        - destruct (Py.Qeqb k' k) eqn:E.
          + apply Qeqb_eq in E. exists k', (v' + v)%Q. split; [exact E | now left].
          + destruct IHd as (r & a & Hr & Ha). exists r, a. split; [exact Hr | now right]. }
      destruct Hnew as (r & a & Hr & Ha).
      destruct (Hkeep pairs _ _ _ Ha) as (a' & Ha'). exists r, a'. auto. }
    intros p Hin. exact (Hkeys pairs [] p Hin).
  - rewrite Htot. cbn [total fold_right]. ring.
Qed.

Lemma buckets_add_up_witness :
  exists pairs,
    cancellations (cascadebot.get_new_rate Examples.usual_config)
                  Examples.mixed_offers Examples.mixed_state
    = Ok pairs Examples.mixed_cancelled
    /\ distinct_keys Examples.mixed_buckets
    /\ (forall r a, In (r, a) Examples.mixed_buckets -> (a == amount_at r pairs)%Q)
    /\ (forall p, In p pairs ->
                  exists r a, (r == fst p)%Q /\ In (r, a) Examples.mixed_buckets)
    /\ (total Examples.mixed_buckets == total pairs)%Q.
Proof.
  apply (buckets_add_up (cascadebot.get_new_rate Examples.usual_config)
           Examples.mixed_offers Examples.mixed_state Examples.mixed_buckets
           Examples.mixed_cancelled).
  vm_compute. reflexivity.
Defined.

(** *** A pass that fails *)

Lemma cascadebot_get_new_rate_quiet config o s s' :
  final (cascadebot.get_new_rate config o s) = Some s' ->
  trace s' = trace s /\ wire s' = wire s /\ nonce s' = nonce s
  /\ request_timestamps s' = request_timestamps s.
Proof.
  unfold cascadebot.get_new_rate, bind.
  destruct (cascadebot.decay_parameters config (currency o))
    as [e | [[[min_rate d] m] v]]; cbn [lift raise ret final].
  - intros H. injection H as <-. auto.
  - destruct (Py.Qleb (rate o) min_rate); cbn [final].
    + intros H. injection H as <-. auto.
    + unfold utcnow. destruct (lags s) as [| e rest]; [discriminate |].
      destruct (Py.timedelta_floordiv (clock s + e - submitted_at o) v) as [ex | q];
        cbn [lift raise ret final]; [intros H; injection H as <-; auto |].
      destruct (Py.lt q (Py.Int 1)) as [ex | []];
        cbn [lift raise ret final]; try (intros H; injection H as <-; auto).
      destruct (Py.range q) as [ex | n];
        cbn [lift raise ret final]; intros H; injection H as <-; auto.
Qed.

Lemma cancel_offer_spec offer s s' :
  final (BitfinexAPI.cancel_offer offer s) = Some s' ->
  exists evs,
    trace s' = trace s ++ evs
    /\ Forall (request_event POST "/v1/offer/cancel" (CancelParams (id offer))
                 (nonce s)) evs.
Proof.
  intros H. unfold BitfinexAPI.cancel_offer in H. apply final_bind_lift in H.
  destruct (request_spec _ _ _ _ H) as (evs & Ht & Hfa & _). eauto.
Qed.

Lemma governance_not_new_offer e : governance e = true -> is_new_offer e = false.
Proof. destruct e as [| [] |]; simpl; congruence. Qed.

Lemma cancel_loop_submits_nothing get_new_rate :
  (forall o s s', final (get_new_rate o s) = Some s' -> trace s' = trace s) ->
  forall offers d s s',
    final (Rebalancer.cancel_loop get_new_rate offers d s) = Some s' ->
    exists evs,
      trace s' = trace s ++ evs /\ Forall (fun e => is_new_offer e = false) evs.
Proof.
  intros Hquiet. induction offers as [| o offers IH]; intros d s s' Hf.
  - simpl in Hf. injection Hf as <-. exists []. split; [now rewrite app_nil_r | constructor].
  - cbn [Rebalancer.cancel_loop] in Hf. apply bind_final in Hf.
    destruct Hf as [(e & He) | (r & s1 & Hg & Hf)].
    + exists []. rewrite app_nil_r. split; [| constructor].
      apply (Hquiet o s s'). now rewrite He.
    + assert (Ht1 : trace s1 = trace s) by (apply (Hquiet o s s1); now rewrite Hg).
      destruct r as [r |].
      * apply bind_final in Hf.
        assert (Hstep : exists s2,
                  final (BitfinexAPI.cancel_offer o s1) = Some s2
                  /\ exists evs, trace s' = trace s2 ++ evs
                                 /\ Forall (fun e => is_new_offer e = false) evs).
        { destruct Hf as [(e & He) | (c & s2 & Hc & Hf)].
          - exists s'. rewrite He. split; [reflexivity |].
            exists []. split; [now rewrite app_nil_r | constructor].
          - exists s2. rewrite Hc. split; [reflexivity |]. exact (IH _ _ _ Hf). }
        destruct Hstep as (s2 & Hc & evs2 & Ht2 & Hfa2).
        destruct (cancel_offer_spec _ _ _ Hc) as (evs1 & Ht & Hfa1).
        exists (evs1 ++ evs2). split.
        { rewrite Ht2, Ht, Ht1. now rewrite app_assoc. }
        apply Forall_app. split; [| exact Hfa2].
        eapply Forall_impl; [| exact Hfa1].
        intros e [Hg' | ->]; [now apply governance_not_new_offer | reflexivity].
      * destruct (IH _ _ _ Hf) as (evs & Ht & Hfa). exists evs.
        split; [now rewrite Ht, Ht1 | exact Hfa].
Qed.

(** X12.  When the first loop of a pass raises, because the exchange
    refuses a cancellation, the pass raises the same exception at once: the
    offers cancelled until then stay cancelled and no new offer is
    submitted for them in this pass. *)
Theorem failed_cancel_submits_nothing config offers lend_period minimum_amount
        s e s' :
  Rebalancer.cancel_loop (cascadebot.get_new_rate config) offers [] s
  = Raise e s' ->
  cascadebot.adjust_offers config offers lend_period minimum_amount s = Raise e s'
  /\ exists evs,
       trace s' = trace s ++ evs /\ Forall (fun ev => is_new_offer ev = false) evs.
Proof.
  intros H. split.
  - unfold cascadebot.adjust_offers, Rebalancer.adjust_offers.
    destruct offers as [| first rest]; [discriminate |].
    unfold bind. now rewrite H.
  - apply (cancel_loop_submits_nothing (cascadebot.get_new_rate config))
      with (offers := offers) (d := []).
    + intros o s0 s0' Hf. now destruct (cascadebot_get_new_rate_quiet _ _ _ _ Hf).
    + now rewrite H.
Qed.

Lemma failed_cancel_submits_nothing_witness :
  cascadebot.adjust_offers Examples.usual_config Examples.mixed_offers 2 50
    MoreExamples.refused_state
  = Raise (Py.HTTPError 400) MoreExamples.refused_final
  /\ exists evs,
       trace MoreExamples.refused_final = trace MoreExamples.refused_state ++ evs
       /\ Forall (fun ev => is_new_offer ev = false) evs.
Proof.
  apply (failed_cancel_submits_nothing Examples.usual_config Examples.mixed_offers
           2 50 MoreExamples.refused_state (Py.HTTPError 400)
           MoreExamples.refused_final).
  vm_compute. reflexivity.
Defined.

(** *** [lending.py] never trades *)

Lemma BFClient_get_new_rate_quiet o s :
  BFClient.get_new_rate o s = Ok None s
  \/ (exists e s', BFClient.get_new_rate o s = Raise e s'
                   /\ trace s' = trace s /\ wire s' = wire s
                   /\ nonce s' = nonce s
                   /\ request_timestamps s' = request_timestamps s)
  \/ BFClient.get_new_rate o s = OutOfScript.
Proof.
  unfold BFClient.get_new_rate, bind.
  destruct (BFClient.decay_parameters (currency o))
    as [e | [[[min_rate d] m] v]] eqn:Hp; cbn [lift raise ret].
  - right. left. exists e, s. auto.
  - assert (Hv : v = Py.Int 1).
    { unfold BFClient.decay_parameters in Hp.
      destruct (String.eqb (currency o) "USD"); [now injection Hp as _ _ _ <- |].
      destruct (String.eqb (currency o) "BTC"); [now injection Hp as _ _ _ <- |].
      discriminate. }
    subst v. destruct (Py.Qleb (rate o) min_rate); [now left |].
    unfold utcnow. destruct (lags s) as [| e rest]; [now right; right |].
    right. left. cbn [Py.timedelta_floordiv Z.eqb lift ret Py.lt raise].
    eexists _, _. split; [reflexivity |]. auto.
Qed.

(** X13.  A pass of [adjust_offers] over offers of [BFClient.py] never
    makes a request: as its [get_new_rate] never returns a rate, the pass
    either returns having cancelled and submitted nothing, or raises at the
    first offer above its floor or in an unknown currency, with the trace,
    the wire, the nonce counter and the timestamp window as they were. *)
Theorem lending_adjust_offers_never_trades offers lend_period minimum_amount s s' :
  final (lending.adjust_offers offers lend_period minimum_amount s) = Some s' ->
  trace s' = trace s /\ wire s' = wire s /\ nonce s' = nonce s
  /\ request_timestamps s' = request_timestamps s.
Proof.
  unfold lending.adjust_offers, Rebalancer.adjust_offers.
  destruct offers as [| first rest]; [simpl; intros H; injection H as <-; auto |].
  assert (Hloop : forall l,
            Rebalancer.cancel_loop BFClient.get_new_rate l [] s = Ok [] s
            \/ (exists e s1,
                  Rebalancer.cancel_loop BFClient.get_new_rate l [] s = Raise e s1
                  /\ trace s1 = trace s /\ wire s1 = wire s /\ nonce s1 = nonce s
                  /\ request_timestamps s1 = request_timestamps s)
            \/ Rebalancer.cancel_loop BFClient.get_new_rate l [] s = OutOfScript).
  { induction l as [| o l IH]; [now left |].
    cbn [Rebalancer.cancel_loop]. unfold bind.
    destruct (BFClient_get_new_rate_quiet o s) as [-> | [(e & s1 & -> & H) | ->]].
    - exact IH.
    - right. left. now exists e, s1.
    - now right; right. }
  unfold bind.
  destruct (Hloop (first :: rest)) as [-> | [(e & s1 & -> & H) | ->]].
  - simpl. intros H. injection H as <-. auto.
  - simpl. intros H'. injection H' as <-. exact H.
  - discriminate.
Qed.

Lemma lending_adjust_offers_never_trades_witness :
  trace (after_reading Examples.twin_state) = trace Examples.twin_state
  /\ wire (after_reading Examples.twin_state) = wire Examples.twin_state
  /\ nonce (after_reading Examples.twin_state) = nonce Examples.twin_state
  /\ request_timestamps (after_reading Examples.twin_state)
     = request_timestamps Examples.twin_state.
Proof.
  apply (lending_adjust_offers_never_trades Examples.twin_offers 2 50
           Examples.twin_state (after_reading Examples.twin_state)).
  vm_compute. reflexivity.
Defined.

(** ** [get_offers], once more *)

Lemma partitioned_currencies select response usd btc :
  partitioned select response = inr (usd, btc) ->
  Forall (fun o => currency o = "USD"%string) usd
  /\ Forall (fun o => currency o = "BTC"%string) btc
  /\ (List.length usd + List.length btc <= List.length response)%nat.
Proof.
  unfold partitioned.
  destruct (parse_offers (filter select response)) as [e | offers] eqn:Hp;
    [discriminate |].
  intros H. injection H as <- <-.
  split; [| split].
  - apply Forall_forall. intros o Ho. apply filter_In in Ho.
    now apply String.eqb_eq.
  - apply Forall_forall. intros o Ho. apply filter_In in Ho.
    now apply String.eqb_eq.
  - assert (Hlen : List.length offers = List.length (filter select response)).
    { clear -Hp. revert offers Hp.
      induction (filter select response) as [| d l IH]; intros offers Hp.
      - injection Hp as <-. reflexivity.
      - cbn [parse_offers] in Hp. destruct (Offer_init d); [discriminate |].
        destruct (parse_offers l) as [| os]; [discriminate |].
        injection Hp as <-. simpl. now rewrite (IH os eq_refl). }
    assert (Hsplit : (List.length
                        (filter (fun o => String.eqb (currency o) "USD") offers)
                      + List.length
                          (filter (fun o => String.eqb (currency o) "BTC") offers)
                      <= List.length offers)%nat).
    { clear. induction offers as [| o offers IH]; [simpl; lia |].
      cbn [filter].
      destruct (String.eqb_spec (currency o) "USD") as [E | _].
      - rewrite E. cbn [String.eqb Ascii.eqb Bool.eqb List.length]. lia.
      - destruct (String.eqb (currency o) "BTC"); cbn [List.length]; lia. }
    pose proof (filter_length_le select response). lia.
Qed.

(** X14.  The two lists [get_offers] returns are fit for [adjust_offers],
    which takes the currency of a pass from its first offer: every offer of
    the first list is in USD and every offer of the second in BTC. *)
Theorem get_offers_single_currency s usd btc s' :
  BitfinexAPI.get_offers s = Ok (usd, btc) s' ->
  Forall (fun o => currency o = "USD"%string) usd
  /\ Forall (fun o => currency o = "BTC"%string) btc.
Proof.
  unfold BitfinexAPI.get_offers. intros H.
  apply bind_Ok in H. destruct H as (j & s1 & _ & H).
  destruct j as [d | l | [| b l] |]; try discriminate.
  - rewrite get_offers_loop_spec in H.
    destruct (partitioned lend_not_frr l) as [e | [u b]] eqn:Hp; [discriminate |].
    injection H as <- <- _.
    destruct (partitioned_currencies _ _ _ _ Hp) as (Hu & Hb & _). now split.
  - injection H as <- <- _. split; constructor.
Qed.

Lemma get_offers_single_currency_witness :
  Forall (fun o => currency o = "USD"%string)
         [mk_Offer 41 "USD" 5.0 (1444274193 * second) 100.0;
          mk_Offer 46 "USD" 4.0 (1444274198 * second) 60.0]
  /\ Forall (fun o => currency o = "BTC"%string)
            [mk_Offer 45 "BTC" 2.5 (1444274197 * second) 0.75].
Proof.
  apply (get_offers_single_currency Examples.offers_state _ _
           Examples.offers_fetched).
  vm_compute. reflexivity.
Defined.

(** X15.  [get_offers] fails on exactly the first entry that passes its
    filter and is not a well-formed offer, whatever the currency of that
    entry: a malformed entry in a currency the bot does not lend aborts the
    whole call, while entries the filter rejects are never parsed. *)
Theorem get_offers_loop_raises response e :
  BitfinexAPI.get_offers_loop response [] [] = inl e <->
  exists before d after,
    response = before ++ d :: after
    /\ lend_not_frr d = true
    /\ Offer_init d = inl e
    /\ Forall (fun d' => lend_not_frr d' = true ->
                         exists o, Offer_init d' = inr o) before.
Proof.
  rewrite get_offers_loop_spec. unfold partitioned.
  assert (H : parse_offers (filter lend_not_frr response) = inl e <->
              exists before d after,
                response = before ++ d :: after
                /\ lend_not_frr d = true
                /\ Offer_init d = inl e
                /\ Forall (fun d' => lend_not_frr d' = true ->
                                     exists o, Offer_init d' = inr o) before).
  { induction response as [| d l IH]; cbn [filter parse_offers].
    - split; [discriminate |]. intros (before & d & after & E & _).
      destruct before; discriminate.
    - destruct (lend_not_frr d) eqn:Hs.
      + cbn [parse_offers]. destruct (Offer_init d) as [e0 | o] eqn:Hi.
        * split.
          { intros H. injection H as <-. exists [], d, l. repeat split; auto. }
          intros (before & d' & after & E & Hs' & Hi' & Hfa).
          destruct before as [| d0 before].
          { injection E as <- _. congruence. }
          injection E as <- _. inversion Hfa as [| ? ? Hd0 _]; subst.
          destruct (Hd0 Hs) as (o & Ho). congruence.
        * destruct (parse_offers (filter lend_not_frr l)) as [e1 | os] eqn:Hp.
          { split.
            - intros H. injection H as <-.
              destruct (proj1 IH eq_refl) as (before & d' & after & -> & Hs' & Hi' & Hfa).
              exists (d :: before), d', after. repeat split; auto.
              constructor; [intros _; now exists o | exact Hfa].
            - intros (before & d' & after & E & Hs' & Hi' & Hfa).
              destruct before as [| d0 before];
                [injection E as <- _; congruence |].
              injection E as _ ->. inversion Hfa; subst.
              f_equal. assert (Hx : inl e1 = @inl _ (list Offer) e); [| congruence].
              apply IH. exists before, d', after. auto. }
          split; [discriminate |].
          intros (before & d' & after & E & Hs' & Hi' & Hfa).
          destruct before as [| d0 before];
            [injection E as <- _; congruence |].
          injection E as _ ->. inversion Hfa; subst.
          assert (Hx : @inr Py.Exn _ os = inl e); [| discriminate].
          apply IH. exists before, d', after. auto.
      + rewrite IH. split.
        * intros (before & d' & after & -> & Hs' & Hi' & Hfa).
          exists (d :: before), d', after. repeat split; auto.
          constructor; [intros Hd; congruence | exact Hfa].
        * intros (before & d' & after & E & Hs' & Hi' & Hfa).
          destruct before as [| d0 before];
            [injection E as <- _; congruence |].
          injection E as _ ->. inversion Hfa; subst.
          exists before, d', after. auto. }
  destruct (parse_offers (filter lend_not_frr response)) as [e0 | offers].
  - rewrite <- H. split; intros E; congruence.
  - rewrite <- H. split; discriminate.
Qed.

Lemma get_offers_loop_raises_witness :
  BitfinexAPI.get_offers_loop MoreExamples.malformed_response [] []
  = inl Py.InvalidOperation.
Proof.
  apply (proj2 (get_offers_loop_raises MoreExamples.malformed_response
                  Py.InvalidOperation)).
  exists [mk_offer_dict 61 "USD" "5.0" "1444274193.0" "100.0" "lend"],
         (mk_offer_dict 62 "LTC" "n/a" "1444274194.0" "30.0" "lend"),
         [mk_offer_dict 63 "BTC" "2.5" "1444274195.0" "0.75" "lend"].
  repeat split.
  constructor; [| constructor]. intros _. eexists. vm_compute. reflexivity.
Defined.

(** ** [get_available_balances], once more *)

(** X16.  [get_available_balances] reads the entries of the deposit wallet
    in "usd" and "btc" and nothing else: the entries of other wallets and
    other currencies are skipped unparsed, so that neither their values nor
    their being malformed changes what the call returns or raises. *)
Theorem balances_only_deposits response usd btc :
  cascadebot.balances_loop response usd btc
  = cascadebot.balances_loop (filter relevant response) usd btc.
Proof.
  revert usd btc. induction response as [| b l IH]; intros usd btc; [reflexivity |].
  cbn [filter]. unfold relevant at 1.
  cbn [cascadebot.balances_loop].
  destruct (String.eqb (b_type b) "deposit") eqn:Et; cbn [andb]; [| apply IH].
  destruct (String.eqb (b_currency b) "usd") eqn:Eu; cbn [orb].
  - cbn [cascadebot.balances_loop]. rewrite Et, Eu.
    destruct (Py.Decimal (b_available b)); [reflexivity | apply IH].
  - destruct (String.eqb (b_currency b) "btc") eqn:Eb; [| apply IH].
    cbn [cascadebot.balances_loop]. rewrite Et, Eu, Eb.
    destruct (Py.Decimal (b_available b)); [reflexivity | apply IH].
Qed.

Example odd_balances_are_read :
  cascadebot.balances_loop MoreExamples.odd_balances 0 0 = inr (120.5, 0.25)%Q.
Proof. vm_compute. reflexivity. Qed.

(** ** The lendbook of [lending.py] *)

Lemma pop_frr_spec snapshot :
  forall bids,
    (List.length (lendbook.frr_bids snapshot) <= List.length bids)%nat ->
    lendbook.pop_frr snapshot bids
    = Some (firstn (List.length bids - List.length (lendbook.frr_bids snapshot))
                   bids).
Proof.
  unfold lendbook.frr_bids.
  induction snapshot as [| bid rest IH]; intros bids Hlen.
  - simpl. now rewrite Nat.sub_0_r, firstn_all.
  - cbn [lendbook.pop_frr filter] in *.
    destruct (String.eqb (lendbook.bid_frr bid) "Yes").
    + cbn [List.length] in Hlen.
      destruct bids as [| b bids]; [simpl in Hlen; lia |].
      rewrite IH.
      * rewrite removelast_firstn_len, firstn_firstn. f_equal. f_equal.
        rewrite length_firstn. cbn [List.length]. lia.
      * rewrite removelast_firstn_len, length_firstn. cbn [List.length] in *. lia.
    + now apply IH.
Qed.

(** X17.  The first loop of [main] in [lending.py] never pops from an empty
    list, and what it removes are not the bids at the floating rate but as
    many bids as there are such, taken from the end of the list: the bids
    left are the first [len(bids) - #frr] of the lendbook, in order. *)
Theorem pop_frr_drops_from_the_end bids :
  lendbook.pop_frr bids bids
  = Some (firstn (List.length bids - List.length (lendbook.frr_bids bids)) bids).
Proof.
  apply pop_frr_spec. apply filter_length_le.
Qed.

Example floating_rate_bid_survives :
  lendbook.pop_frr MoreExamples.bids MoreExamples.bids
  = Some [lendbook.mk_bid_dict "0.0" "5000.0" 30 "1444257541.0" "Yes";
          lendbook.mk_bid_dict "9.1" "300.0" 2 "1444257542.0" "No"].
Proof. reflexivity. Qed.

(** ** The order of a pass *)

Lemma bucket_event_not_cancel currency lend_period minimum_amount items e :
  bucket_event currency lend_period minimum_amount items e -> is_cancel e = false.
Proof.
  intros [H | [(o & ->) | [(item & n & _ & _ & ->) | (item & _ & _ & ->)]]];
    try reflexivity.
  destruct e as [| [] |]; simpl in *; congruence.
Qed.

(** X18.  A pass cancels first and submits afterwards: what it leaves on
    the trace is a first part without any attempt to submit a new offer
    followed by a second part without any attempt to cancel one.  No new
    offer is submitted while an old one of the pass is still to be
    cancelled. *)
Theorem cancels_before_submissions config offers lend_period minimum_amount s s' :
  final (cascadebot.adjust_offers config offers lend_period minimum_amount s)
  = Some s' ->
  exists cancels submissions,
    trace s' = trace s ++ cancels ++ submissions
    /\ Forall (fun e => is_new_offer e = false) cancels
    /\ Forall (fun e => is_cancel e = false) submissions.
Proof.
  unfold cascadebot.adjust_offers, Rebalancer.adjust_offers.
  destruct offers as [| first rest].
  - simpl. intros H. injection H as <-. exists [], [].
    split; [now rewrite app_nil_r | split; constructor].
  - intros Hf. apply bind_final in Hf.
    assert (Hq : forall o s0 s0',
              final (cascadebot.get_new_rate config o s0) = Some s0' ->
              trace s0' = trace s0)
      by (intros o s0 s0' H; now destruct (cascadebot_get_new_rate_quiet _ _ _ _ H)).
    destruct Hf as [(e & He) | (buckets & s1 & Hc & Hf)].
    + destruct (cancel_loop_submits_nothing _ Hq (first :: rest) [] s s')
        as (evs & Ht & Hfa); [now rewrite He |].
      exists evs, []. rewrite app_nil_r. split; [exact Ht | split; [exact Hfa | constructor]].
    + destruct (cancel_loop_submits_nothing _ Hq (first :: rest) [] s s1)
        as (evs1 & Ht1 & Hfa1); [now rewrite Hc |].
      destruct (submit_loop_spec _ _ _ _ _ _ Hf) as (evs2 & Ht2 & Hfa2 & _).
      exists evs1, evs2. split; [rewrite Ht2, Ht1; now rewrite app_assoc |].
      split; [exact Hfa1 |].
      eapply Forall_impl; [| exact Hfa2].
      intros e. apply bucket_event_not_cancel.
Qed.

Lemma cancels_before_submissions_witness :
  exists cancels submissions,
    trace Examples.mixed_final = trace Examples.mixed_state ++ cancels ++ submissions
    /\ Forall (fun e => is_new_offer e = false) cancels
    /\ Forall (fun e => is_cancel e = false) submissions.
Proof.
  apply (cancels_before_submissions Examples.usual_config Examples.mixed_offers
           2 50 Examples.mixed_state Examples.mixed_final).
  vm_compute. reflexivity.
Defined.
